(** * Curiosity MAAS weather gateway (src/app.py): model and properties

    A shallow embedding of the gateway: the in-memory cache with its
    15 minute time-to-live, the normaliser of upstream records, the weather
    endpoints, the deterministic summary formatter and the two summary
    endpoints with their LLM path.

    Conventions of the model.
    - Python values coming out of [r.json()] are the inductive [value];
      a dict is an association list in insertion order, in which a key is
      looked up from the front.
    - A raised exception is the [Raise] case of [result]; the handlers run
      in a state-and-exception monad over the global [CACHE].
    - Floats are IEEE binary64 numbers ([spec_float]).  The conversions
      between text and floats, [repr] of text and [str.strip] are built-ins
      of the Python runtime: they are the fields of [PyRuntime] and every
      statement holds for any implementation of them.
    - Clock readings ([time.time()]) are exact rationals; the rounding of
      the float subtraction in [_get_cached] is not modelled.
    - [requests] delivers the decoded JSON body, raises a
      [RequestException] (connection errors, timeouts, bad status and, as in
      requests 2.27 and later, undecodable bodies), or lets through one of
      the decoder's other exceptions. *)

From Stdlib Require Import ZArith QArith String Ascii List Bool Lia.
From Stdlib Require Import DecimalString DecimalPos DecimalZ.
From Stdlib Require Import Floats.SpecFloat.
From stdpp Require Import gmap strings.
Import ListNotations.

Set Warnings "-register-all".

Local Open Scope string_scope.
Local Open Scope Z_scope.

(** ** Python values and exceptions *)

Definition float : Type := spec_float.

Inductive value : Type :=
| VNone
| VBool (b : bool)
| VInt (n : Z)
| VFloat (f : float)
| VStr (s : string)
| VList (xs : list value)
| VDict (kvs : list (string * value)).

Inductive exn : Type :=
| HTTPException (status_code : Z) (detail : string)
| RequestException (msg : string)
| RuntimeError (msg : string)
| AttributeError
| TypeError
| ValueError
| KeyError
| IndexError
| OverflowError
| RecursionError.

Inductive result (A : Type) : Type :=
| Ok (a : A)
| Raise (e : exn).

Arguments Ok {A} a.
Arguments Raise {A} e.

Definition rbind {A B : Type} (r : result A) (k : A -> result B) : result B :=
  match r with
  | Ok a => k a
  | Raise e => Raise e
  end.

(** [try: body  except Exception: handler] *)
Definition try_except {A : Type} (body : result A) (handler : exn -> result A)
  : result A :=
  match body with
  | Ok a => Ok a
  | Raise e => handler e
  end.

Declare Scope py_scope.
Delimit Scope py_scope with py.
Notation "x <- r ;; k" := (rbind r (fun x => k))
  (at level 100, r at next level, right associativity) : py_scope.

(** ** Built-ins of the Python runtime *)

Class PyRuntime : Type := {
  (** [float(s)] on text; [None] stands for [ValueError] *)
  float_of_str : string -> option float;
  (** [repr(x)], which is also [str(x)], of a float *)
  float_repr : float -> string;
  (** [format(x, ".Nf")] of a float *)
  float_fixed : nat -> float -> string;
  (** [repr(s)] of text: quoted and escaped *)
  str_repr : string -> string;
  (** [s.strip()] *)
  str_strip : string -> string
}.

(** A small runtime used to evaluate the model on concrete inputs.  It
    reads optionally signed decimal integers only (no blanks, fractions or
    exponents), prints a float through its integer part, which is exact
    for the integral floats of the examples below, quotes text without
    escaping and strips the ASCII blanks. *)
Definition sample_float_of_str (s : string) : option float :=
  let digits := match s with
                | String "+" s' => s'
                | String "-" s' => s'
                | _ => s
                end in
  let neg := match s with String "-" _ => true | _ => false end in
  match NilZero.uint_of_string digits with
  | Some d =>
      let n := Z.of_uint d in
      Some (binary_normalize 53 1024 (if neg then - n else n) 0 neg)
  | None => None
  end.

Definition float_trunc (f : float) : Z :=
  match f with
  | S754_finite s m e =>
      let a := match e with
               | Zneg p => Z.shiftr (Zpos m) (Zpos p)
               | _ => Z.shiftl (Zpos m) e
               end in
      if s then - a else a
  | _ => 0
  end.

Definition sample_float_text (f : float) : string :=
  match f with
  | S754_nan => "nan"
  | S754_infinity s => if s then "-inf" else "inf"
  | _ => NilZero.string_of_int (Z.to_int (float_trunc f))
  end.

Definition is_blank (c : ascii) : bool :=
  match nat_of_ascii c with
  | 9 | 10 | 11 | 12 | 13 | 32 => true
  | _ => false
  end%nat.

Fixpoint strip_left (s : string) : string :=
  match s with
  | String c s' => if is_blank c then strip_left s' else s
  | EmptyString => EmptyString
  end.

Fixpoint strip_right (s : string) : string :=
  match s with
  | EmptyString => EmptyString
  | String c s' =>
      match strip_right s' with
      | EmptyString => if is_blank c then EmptyString else String c EmptyString
      | t => String c t
      end
  end.

Definition sample_runtime : PyRuntime := {|
  float_of_str := sample_float_of_str;
  float_repr := fun f => sample_float_text f +:+ ".0";
  float_fixed := fun n f =>
    match n with
    | O => sample_float_text f
    | _ => sample_float_text f +:+ ".0"
    end;
  str_repr := fun s => "'" +:+ s +:+ "'";
  str_strip := fun s => strip_right (strip_left s)
|}.

(** ** Truth value, [str] and [repr] *)

Definition py_truthy (x : value) : bool :=
  match x with
  | VNone => false
  | VBool b => b
  | VInt n => negb (n =? 0)
  | VFloat (S754_zero _) => false
  | VFloat _ => true
  | VStr EmptyString => false
  | VStr _ => true
  | VList [] => false
  | VList _ => true
  | VDict [] => false
  | VDict _ => true
  end.

Definition is_none (x : value) : bool :=
  match x with
  | VNone => true
  | _ => false
  end.

(** [str(n)] of an integer *)
Definition int_str (n : Z) : string := NilZero.string_of_int (Z.to_int n).

Section Builtins.
Context {rt : PyRuntime}.

Fixpoint py_repr (x : value) : string :=
  match x with
  | VNone => "None"
  | VBool b => if b then "True" else "False"
  | VInt n => int_str n
  | VFloat f => float_repr f
  | VStr s => str_repr s
  | VList xs => "[" +:+ String.concat ", " (map py_repr xs) +:+ "]"
  | VDict kvs =>
      "{" +:+ String.concat ", "
                (map (fun kv => str_repr (fst kv) +:+ ": " +:+ py_repr (snd kv)) kvs)
          +:+ "}"
  end.

(** [str(x)], also what an f-string field [{x}] renders *)
Definition py_str (x : value) : string :=
  match x with
  | VStr s => s
  | _ => py_repr x
  end.

(** [float(n)] of an integer: nearest double, [OverflowError] beyond the
    range of doubles *)
Definition float_of_int (n : Z) : result float :=
  match binary_normalize 53 1024 n 0 false with
  | S754_infinity _ => Raise OverflowError
  | f => Ok f
  end.

(** [float(x)] *)
Definition py_float (x : value) : result float :=
  match x with
  | VFloat f => Ok f
  | VInt n => float_of_int n
  | VBool b => float_of_int (if b then 1 else 0)
  | VStr s =>
      match float_of_str s with
      | Some f => Ok f
      | None => Raise ValueError
      end
  | VNone | VList _ | VDict _ => Raise TypeError
  end.

(** [format(x, ".Nf")], the f-string field [{x:.Nf}] *)
Definition py_format_f (digits : nat) (x : value) : result string :=
  match x with
  | VFloat f => Ok (float_fixed digits f)
  | VInt n => (f <- float_of_int n ;; Ok (float_fixed digits f))%py
  | VBool b =>
      (f <- float_of_int (if b then 1 else 0) ;; Ok (float_fixed digits f))%py
  | VStr _ => Raise ValueError
  | VNone | VList _ | VDict _ => Raise TypeError
  end.

(** ** Dict access *)

Fixpoint assoc (k : string) (kvs : list (string * value)) : option value :=
  match kvs with
  | [] => None
  | (k', x) :: rest => if String.eqb k k' then Some x else assoc k rest
  end.

(** [d.get(k)]: only a dict has the method *)
Definition dict_get (d : value) (k : string) : result value :=
  match d with
  | VDict kvs => Ok (default VNone (assoc k kvs))
  | _ => Raise AttributeError
  end.

(** [x[k]] with a text key *)
Definition subscript_key (x : value) (k : string) : result value :=
  match x with
  | VDict kvs =>
      match assoc k kvs with
      | Some y => Ok y
      | None => Raise KeyError
      end
  | _ => Raise TypeError
  end.

(** [x[0]]: the keys of a decoded JSON object are text, so the integer 0
    is never one of them *)
Definition subscript_0 (x : value) : result value :=
  match x with
  | VList (y :: _) => Ok y
  | VList [] => Raise IndexError
  | VStr (String c _) => Ok (VStr (String c EmptyString))
  | VStr EmptyString => Raise IndexError
  | VDict _ => Raise KeyError
  | _ => Raise TypeError
  end.

(** [x.strip()]: only text has the method *)
Definition py_strip (x : value) : result string :=
  match x with
  | VStr s => Ok (str_strip s)
  | _ => Raise AttributeError
  end.

End Builtins.

(** ** The in-memory cache *)

(** A row [{"t": ..., "v": ...}] of [CACHE] *)
Record row : Type := Row { row_t : Q; row_v : value }.

Abbreviation cache := (gmap string row).

Definition TTL : Q := 15 * 60.

(** A raising or returning computation over the global [CACHE] *)
Definition handler (A : Type) : Type := cache -> result A * cache.

Definition hret {A : Type} (a : A) : handler A := fun CACHE => (Ok a, CACHE).

Definition hraise {A : Type} (e : exn) : handler A := fun CACHE => (Raise e, CACHE).

Definition lift {A : Type} (r : result A) : handler A := fun CACHE => (r, CACHE).

Definition hbind {A B : Type} (m : handler A) (k : A -> handler B) : handler B :=
  fun CACHE =>
    match m CACHE with
    | (Ok a, CACHE') => k a CACHE'
    | (Raise e, CACHE') => (Raise e, CACHE')
    end.

Declare Scope handler_scope.
Delimit Scope handler_scope with hd.
Notation "x <- m ;; k" := (hbind m (fun x => k))
  (at level 100, m at next level, right associativity) : handler_scope.

(** [now] is the reading of [time.time()] taken inside the call. *)
Definition _get_cached (now : Q) (key : string) : handler value :=
  fun CACHE =>
    match CACHE !! key with
    | None => (Ok VNone, CACHE)
    | Some r =>
        if negb (Qle_bool (now - row_t r) TTL)
        then (Ok VNone, delete key CACHE)
        else (Ok (row_v r), CACHE)
    end.

Definition _set_cached (now : Q) (key : string) (x : value) : handler unit :=
  fun CACHE => (Ok tt, <[key := Row now x]> CACHE).

(** ** What one request sees of the outside world *)

(** The exceptions of [r.json()] that are no [RequestException]: the
    decoder's [ValueError] for an integer literal beyond its digit limit and
    its [RecursionError] for a body nested too deep *)
Inductive uncaught : Type :=
| DecoderValueError
| DecoderRecursionError.

Definition uncaught_exn (u : uncaught) : exn :=
  match u with
  | DecoderValueError => ValueError
  | DecoderRecursionError => RecursionError
  end.

(** [requests.get(...)], [raise_for_status()] and [r.json()] taken together:
    the decoded body, a [RequestException], or an exception that the
    [except] clause of [_fetch_maas] does not catch *)
Inductive get_reply : Type :=
| GetJson (data : value)
| GetRaised (msg : string)
| GetUncaught (u : uncaught).

(** [requests.post(...)]: an exception, or a response with its status and
    its body ([None] when the body is not JSON) *)
Inductive post_reply : Type :=
| PostRaised (msg : string)
| PostResponse (status_code : Z) (body : option value).

Record env : Type := {
  MAAS_BASE : string;
  LLM_API_URL : option string;
  LLM_API_KEY : option string;
  LLM_MODEL : option string;
  (** [time.time()] as read by [_get_cached] and by [_set_cached] *)
  time_lookup : Q;
  time_store : Q;
  (** the upstream, by URL *)
  requests_get : string -> get_reply;
  (** the LLM endpoint, by URL, key, model and prompt *)
  requests_post : string -> string -> string -> string -> post_reply
}.

(** Truth value of [os.getenv(...)]: unset and empty both count as false. *)
Definition getenv_truthy (x : option string) : bool :=
  match x with
  | Some (String _ _) => true
  | _ => false
  end.

Definition nl : string := String (ascii_of_nat 10) EmptyString.

(** The status that the outcome of a handler stands for: 200 for a returned
    value, the status of an [HTTPException], 500 for any other exception.
    The JSON encoding of the returned value, which the framework does
    afterwards, is left to [response_status]. *)
Definition http_status {A : Type} (r : result A) : Z :=
  match r with
  | Ok _ => 200
  | Raise (HTTPException status_code _) => status_code
  | Raise _ => 500
  end.

Section Gateway.
Context {rt : PyRuntime}.
Variable E : env.

Definition _fetch_maas (path : string) : result value :=
  let url := MAAS_BASE E +:+ path in
  match requests_get E url with
  | GetJson data => Ok data
  | GetRaised e => Raise (HTTPException 502 ("Upstream MAAS error: " +:+ e))
  | GetUncaught u => Raise (uncaught_exn u)
  end.

(** The inner function of [_normalize_maas] *)
Definition to_float (x : value) : value :=
  match py_float x with
  | Ok f => VFloat f
  | Raise _ => VNone
  end.

Definition _normalize_maas (d : value) : result value :=
  (sol <- dict_get d "sol" ;;
   earth_date <- dict_get d "terrestrial_date" ;;
   season <- dict_get d "season" ;;
   min_temp <- dict_get d "min_temp" ;;
   max_temp <- dict_get d "max_temp" ;;
   min_gts_temp <- dict_get d "min_gts_temp" ;;
   max_gts_temp <- dict_get d "max_gts_temp" ;;
   pressure <- dict_get d "pressure" ;;
   pressure_string <- dict_get d "pressure_string" ;;
   sunrise <- dict_get d "sunrise" ;;
   sunset <- dict_get d "sunset" ;;
   uv <- dict_get d "local_uv_irradiance_index" ;;
   atmo_opacity <- dict_get d "atmo_opacity" ;;
   Ok (VDict
         [ ("source", VStr "curiosity_rems_maas");
           ("sol", sol);
           ("earth_date", earth_date);
           ("season", season);
           ("temperature_c",
             VDict [ ("min", to_float min_temp);
                     ("max", to_float max_temp);
                     ("min_gts", to_float min_gts_temp);
                     ("max_gts", to_float max_gts_temp) ]);
           ("pressure_pa", to_float pressure);
           ("pressure_qual", pressure_string);
           ("sunrise_local", sunrise);
           ("sunset_local", sunset);
           ("uv_index", uv);
           ("atmo_opacity", atmo_opacity) ]))%py.

Definition weather_latest : handler value :=
  (let key := "latest" in
   cached <- _get_cached (time_lookup E) key ;;
   if py_truthy cached then hret cached else
   data <- lift (_fetch_maas "/") ;;
   out <- lift (_normalize_maas data) ;;
   _ <- _set_cached (time_store E) key out ;;
   hret out)%hd.

Definition weather_by_sol (sol : Z) : handler value :=
  (let key := "sol:" +:+ int_str sol in
   cached <- _get_cached (time_lookup E) key ;;
   if py_truthy cached then hret cached else
   data <- lift (_fetch_maas ("/" +:+ int_str sol)) ;;
   if negb (py_truthy data)
      || match data with
         | VDict kvs => py_truthy (default VNone (assoc "error" kvs))
         | _ => false
         end
   then hraise (HTTPException 404 ("No data for sol " +:+ int_str sol))
   else
   out <- lift (_normalize_maas data) ;;
   _ <- _set_cached (time_store E) key out ;;
   hret out)%hd.

(** [parts.append(s)] *)
Definition append (parts : list string) (s : string) : list string := parts ++ [s].

Definition _format_brief (d : value) : result string :=
  if negb (py_truthy d) then Ok "No data." else
  (sol <- dict_get d "sol" ;;
   day <- dict_get d "earth_date" ;;
   tc <- dict_get d "temperature_c" ;;
   let t := if py_truthy tc then tc else VDict [] in
   tmin <- dict_get t "min" ;;
   tmax <- dict_get t "max" ;;
   press <- dict_get d "pressure_pa" ;;
   season <- dict_get d "season" ;;
   uv <- dict_get d "uv_index" ;;
   sky <- dict_get d "atmo_opacity" ;;
   let parts :=
     ["Mars (Curiosity/REMS) — Sol " +:+ py_str sol +:+ " (" +:+ py_str day +:+ ")."] in
   parts <-
     (if negb (is_none tmin) && negb (is_none tmax) then
        lo <- py_format_f 1 tmin ;;
        hi <- py_format_f 1 tmax ;;
        Ok (append parts ("Temp: " +:+ lo +:+ "°C to " +:+ hi +:+ "°C."))
      else if negb (is_none tmin) || negb (is_none tmax) then
        Ok (append parts
              ("Temp: min " +:+ (if negb (is_none tmin) then py_str tmin else "?")
               +:+ "°C, max " +:+ (if negb (is_none tmax) then py_str tmax else "?")
               +:+ "°C."))
      else Ok parts) ;;
   parts <-
     (if negb (is_none press) then
        p <- py_format_f 0 press ;;
        Ok (append parts ("Pressure: " +:+ p +:+ " Pa."))
      else Ok parts) ;;
   let parts :=
     if py_truthy season then append parts ("Season: " +:+ py_str season +:+ ".")
     else parts in
   let parts :=
     if py_truthy sky then append parts ("Atmospheric opacity: " +:+ py_str sky +:+ ".")
     else parts in
   let parts :=
     if py_truthy uv then append parts ("UV Index: " +:+ py_str uv +:+ ".")
     else parts in
   Ok (String.concat " " parts))%py.

(** [dedent] removes the four blanks that start every line of the template;
    the rendering of [d] holds no line break. *)
Definition _prompt_from_weather (d : value) : string :=
  str_strip
    (nl +:+ "You are a concise science reporter. Summarise the Curiosity/REMS weather for a general audience in 2–3 sentences."
     +:+ nl +:+ "Include Sol number and Earth date; mention temperatures in °C (range), pressure in Pa (if present), season and sky/opacity if present."
     +:+ nl +:+ "Avoid speculation and do not invent numbers."
     +:+ nl +:+ "Data (JSON):"
     +:+ nl +:+ py_str d
     +:+ nl).

Definition _call_llm (prompt : string) : result string :=
  let api_url := LLM_API_URL E in
  let api_key := LLM_API_KEY E in
  let model := LLM_MODEL E in
  if negb (getenv_truthy api_url && getenv_truthy api_key && getenv_truthy model)
  then Raise (RuntimeError "LLM not configured (set LLM_API_URL, LLM_API_KEY, LLM_MODEL).")
  else
    match requests_post E (default EmptyString api_url) (default EmptyString api_key)
                        (default EmptyString model) prompt with
    | PostRaised msg => Raise (RequestException msg)
    | PostResponse status_code body =>
        (* r.raise_for_status() *)
        if (400 <=? status_code) && (status_code <? 600)
        then Raise (RequestException "HTTPError")
        else
          (* r.json() *)
          match body with
          | None => Raise (RequestException "JSONDecodeError")
          | Some data =>
              try_except
                (choices <- subscript_key data "choices" ;;
                 first <- subscript_0 choices ;;
                 message <- subscript_key first "message" ;;
                 content <- subscript_key message "content" ;;
                 py_strip content)%py
                (fun _ => Ok (py_str data))
          end
    end.

Definition ai_brief_latest : handler value :=
  (d <- weather_latest ;;
   lift (try_except
           (text <- _call_llm (_prompt_from_weather d) ;;
            Ok (VDict [("mode", VStr "llm"); ("text", VStr text)]))%py
           (fun _ =>
              text <- _format_brief d ;;
              Ok (VDict [("mode", VStr "fallback"); ("text", VStr text)]))%py))%hd.

Definition ai_brief_by_sol (sol : Z) : handler value :=
  (d <- weather_by_sol sol ;;
   lift (try_except
           (text <- _call_llm (_prompt_from_weather d) ;;
            Ok (VDict [("mode", VStr "llm"); ("text", VStr text)]))%py
           (fun _ =>
              text <- _format_brief d ;;
              Ok (VDict [("mode", VStr "fallback"); ("text", VStr text)]))%py))%hd.

End Gateway.

(** ** The normalised record, as the data model describes it *)

Record WeatherRecord : Type := {
  sol : value;
  earth_date : value;
  season : value;
  temp_min : option float;
  temp_max : option float;
  temp_min_gts : option float;
  temp_max_gts : option float;
  pressure_pa : option float;
  pressure_qual : value;
  sunrise_local : value;
  sunset_local : value;
  uv_index : value;
  atmo_opacity : value
}.

Definition float_or_null (o : option float) : value :=
  match o with
  | Some f => VFloat f
  | None => VNone
  end.

(** The dict a record stands for *)
Definition to_dict (r : WeatherRecord) : value :=
  VDict
    [ ("source", VStr "curiosity_rems_maas");
      ("sol", sol r);
      ("earth_date", earth_date r);
      ("season", season r);
      ("temperature_c",
        VDict [ ("min", float_or_null (temp_min r));
                ("max", float_or_null (temp_max r));
                ("min_gts", float_or_null (temp_min_gts r));
                ("max_gts", float_or_null (temp_max_gts r)) ]);
      ("pressure_pa", float_or_null (pressure_pa r));
      ("pressure_qual", pressure_qual r);
      ("sunrise_local", sunrise_local r);
      ("sunset_local", sunset_local r);
      ("uv_index", uv_index r);
      ("atmo_opacity", atmo_opacity r) ].

(** The field names of a record, in order, and those of its temperature part *)
Definition record_fields : list string :=
  [ "source"; "sol"; "earth_date"; "season"; "temperature_c"; "pressure_pa";
    "pressure_qual"; "sunrise_local"; "sunset_local"; "uv_index"; "atmo_opacity" ].

Definition temperature_fields : list string := [ "min"; "max"; "min_gts"; "max_gts" ].

(** [raw.get(k)] on the members of a JSON object: null when [k] is absent *)
Definition member (k : string) (raw : list (string * value)) : value :=
  default VNone (assoc k raw).

Definition is_weather_record (x : value) : Prop := exists r, x = to_dict r.

(** Every cached value is a normalised record: true of the empty cache and
    kept by every endpoint. *)
Definition cache_ok (CACHE : cache) : Prop :=
  forall key r, CACHE !! key = Some r -> is_weather_record (row_v r).

(** The entry under [key] is present, not older than [TTL] at [now], and
    its value is truthy: the endpoints then answer from the cache. *)
Definition cache_hit (now : Q) (key : string) (CACHE : cache) : bool :=
  match CACHE !! key with
  | Some r => Qle_bool (now - row_t r) TTL && py_truthy (row_v r)
  | None => false
  end.

(** The entry under [key] is present and older than [TTL] at [now]. *)
Definition cache_expired (now : Q) (key : string) (CACHE : cache) : bool :=
  match CACHE !! key with
  | Some r => negb (Qle_bool (now - row_t r) TTL)
  | None => false
  end.

(** The cache keys of the two weather endpoints *)
Definition latest_key : string := "latest".

Definition sol_key (n : Z) : string := "sol:" +:+ int_str n.

(** The upstream reports no data: an empty or null body, or an object with
    a non-empty [error] member. *)
Definition reports_no_data (data : value) : bool :=
  match data with
  | VNone | VBool false | VStr EmptyString | VList [] | VDict [] => true
  | VInt n => n =? 0
  | VFloat (S754_zero _) => true
  | VDict kvs => py_truthy (member "error" kvs)
  | _ => false
  end.

(** A JSON value that is a number or text spelling one.  Booleans are not
    JSON numbers. *)
Definition json_numeric {rt : PyRuntime} (x : value) : bool :=
  match x with
  | VInt _ | VFloat _ => true
  | VStr s => match float_of_str s with Some _ => true | None => false end
  | _ => false
  end.

(** What [float()] rejects: null, arrays, objects, text it cannot read, and
    integers beyond the range of doubles. *)
Definition float_rejects {rt : PyRuntime} (x : value) : Prop :=
  match x with
  | VNone | VList _ | VDict _ => True
  | VStr s => float_of_str s = None
  | VInt n =>
      exists s, binary_normalize 53 1024 n 0 false = S754_infinity s
  | VBool _ | VFloat _ => False
  end.

(** ** The summary text, clause by clause *)

(** [p in s] *)
Fixpoint occurs_in (p s : string) : bool :=
  String.prefix p s
  || match s with
     | EmptyString => false
     | String _ s' => occurs_in p s'
     end.

Section Clauses.
Context {rt : PyRuntime}.
Variable r : WeatherRecord.

Definition lead_clause : string :=
  "Mars (Curiosity/REMS) — Sol " +:+ py_str (sol r) +:+ " (" +:+ py_str (earth_date r) +:+ ").".

Definition temp_clause : list string :=
  match temp_min r, temp_max r with
  | Some lo, Some hi =>
      [ "Temp: " +:+ float_fixed 1 lo +:+ "°C to " +:+ float_fixed 1 hi +:+ "°C." ]
  | Some lo, None => [ "Temp: min " +:+ float_repr lo +:+ "°C, max ?°C." ]
  | None, Some hi => [ "Temp: min ?°C, max " +:+ float_repr hi +:+ "°C." ]
  | None, None => []
  end.

Definition pressure_clause : list string :=
  match pressure_pa r with
  | Some p => [ "Pressure: " +:+ float_fixed 0 p +:+ " Pa." ]
  | None => []
  end.

Definition season_clause : list string :=
  if py_truthy (season r) then [ "Season: " +:+ py_str (season r) +:+ "." ] else [].

Definition opacity_clause : list string :=
  if py_truthy (atmo_opacity r)
  then [ "Atmospheric opacity: " +:+ py_str (atmo_opacity r) +:+ "." ] else [].

Definition uv_clause : list string :=
  if py_truthy (uv_index r) then [ "UV Index: " +:+ py_str (uv_index r) +:+ "." ] else [].

Definition brief_clauses : list string :=
  lead_clause :: temp_clause ++ pressure_clause ++ season_clause
              ++ opacity_clause ++ uv_clause.

(** The field renderings that the clauses other than the pressure clause
    interpolate *)
Definition interpolated_texts : list string :=
  [ py_str (sol r); py_str (earth_date r) ]
  ++ match temp_min r, temp_max r with
     | Some lo, Some hi => [ float_fixed 1 lo; float_fixed 1 hi ]
     | Some lo, None => [ float_repr lo ]
     | None, Some hi => [ float_repr hi ]
     | None, None => []
     end
  ++ (if py_truthy (season r) then [ py_str (season r) ] else [])
  ++ (if py_truthy (atmo_opacity r) then [ py_str (atmo_opacity r) ] else [])
  ++ (if py_truthy (uv_index r) then [ py_str (uv_index r) ] else []).

End Clauses.

(** The record [_normalize_maas] builds from the members of an object *)
Definition record_of {rt : PyRuntime} (raw : list (string * value)) : WeatherRecord :=
  let opt x := match py_float x with Ok f => Some f | Raise _ => None end in
  {| sol := member "sol" raw;
     earth_date := member "terrestrial_date" raw;
     season := member "season" raw;
     temp_min := opt (member "min_temp" raw);
     temp_max := opt (member "max_temp" raw);
     temp_min_gts := opt (member "min_gts_temp" raw);
     temp_max_gts := opt (member "max_gts_temp" raw);
     pressure_pa := opt (member "pressure" raw);
     pressure_qual := member "pressure_string" raw;
     sunrise_local := member "sunrise" raw;
     sunset_local := member "sunset" raw;
     uv_index := member "local_uv_irradiance_index" raw;
     atmo_opacity := member "atmo_opacity" raw |}.

(** The record with every field null *)
Definition null_record : WeatherRecord :=
  {| sol := VNone; earth_date := VNone; season := VNone;
     temp_min := None; temp_max := None; temp_min_gts := None; temp_max_gts := None;
     pressure_pa := None; pressure_qual := VNone;
     sunrise_local := VNone; sunset_local := VNone;
     uv_index := VNone; atmo_opacity := VNone |}.

(** The fixed renaming of the passed-through members: output field, input
    member *)
Definition passthrough_fields : list (string * string) :=
  [ ("sol", "sol"); ("earth_date", "terrestrial_date"); ("season", "season");
    ("pressure_qual", "pressure_string"); ("sunrise_local", "sunrise");
    ("sunset_local", "sunset"); ("uv_index", "local_uv_irradiance_index");
    ("atmo_opacity", "atmo_opacity") ].

(** The members coerced with [to_float]: field of [temperature_c], input
    member *)
Definition temperature_members : list (string * string) :=
  [ ("min", "min_temp"); ("max", "max_temp");
    ("min_gts", "min_gts_temp"); ("max_gts", "max_gts_temp") ].

(** [c in p] for a character *)
Fixpoint char_in (c : ascii) (p : string) : bool :=
  match p with
  | EmptyString => false
  | String c' p' => Ascii.eqb c c' || char_in c p'
  end.

(** The doubles 1.0 and 0.0 *)
Definition float_one : float := S754_finite false 4503599627370496 (-52).

Definition float_zero : float := S754_zero false.

(** The members coerced with [to_float], each with the record field it
    fills *)
Definition numeric_members : list (string * (WeatherRecord -> option float)) :=
  [ ("min_temp", temp_min); ("max_temp", temp_max);
    ("min_gts_temp", temp_min_gts); ("max_gts_temp", temp_max_gts);
    ("pressure", pressure_pa) ].

(** The cache after [_get_cached now key]: an entry older than [TTL] is
    gone, nothing else differs. *)
Definition after_lookup (now : Q) (key : string) (CACHE : cache) : cache :=
  if cache_expired now key CACHE then delete key CACHE else CACHE.

(** The body of an LLM response holds the expected content: text at
    [choices[0].message.content]. *)
Definition has_content (data : value) : bool :=
  match data with
  | VDict kvs =>
      match assoc "choices" kvs with
      | Some (VList (VDict first :: _)) =>
          match assoc "message" first with
          | Some (VDict message) =>
              match assoc "content" message with
              | Some (VStr _) => true
              | _ => false
              end
          | _ => false
          end
      | _ => false
      end
  | _ => false
  end.

(** The answer of a summary endpoint *)
Definition brief (mode text : string) : value :=
  VDict [("mode", VStr mode); ("text", VStr text)].

(** ** Sample requests *)

Definition sample_env (upstream : get_reply) (api_url api_key model : option string)
    (llm : post_reply) (now : Q) : env :=
  {| MAAS_BASE := "https://api.maas2.apollorion.com";
     LLM_API_URL := api_url;
     LLM_API_KEY := api_key;
     LLM_MODEL := model;
     time_lookup := now;
     time_store := now;
     requests_get := fun _ => upstream;
     requests_post := fun _ _ _ _ => llm |}.

Definition sample_raw : list (string * value) :=
  [ ("sol", VInt 4100); ("terrestrial_date", VStr "2024-03-01");
    ("min_temp", VStr "-70"); ("max_temp", VStr "-5"); ("pressure", VStr "870") ].

Definition sample_text : string :=
  "Mars (Curiosity/REMS) — Sol 4100 (2024-03-01). Temp: -70.0°C to -5.0°C. Pressure: 870 Pa.".

(** The upstream is down and no LLM is configured. *)
Definition env_upstream_down : env :=
  sample_env (GetRaised "timed out") None None None (PostRaised "unused") 1000.

(** The upstream answers; no LLM is configured. *)
Definition env_no_llm : env :=
  sample_env (GetJson (VDict sample_raw)) None None None (PostRaised "unused") 1000.

(** The upstream answers; the LLM answers 200 with the JSON body [{}]. *)
Definition env_llm_empty_object : env :=
  sample_env (GetJson (VDict sample_raw))
    (Some "https://llm.example/v1/chat/completions") (Some "key") (Some "model")
    (PostResponse 200 (Some (VDict []))) 1000.

(** The upstream answers; the LLM answers 200 with a body that is not JSON. *)
Definition env_llm_not_json : env :=
  sample_env (GetJson (VDict sample_raw))
    (Some "https://llm.example/v1/chat/completions") (Some "key") (Some "model")
    (PostResponse 200 None) 1000.

(** The upstream answers [{"error": "not found"}]. *)
Definition env_not_found : env :=
  sample_env (GetJson (VDict [("error", VStr "not found")])) None None None
    (PostRaised "unused") 1000.

(** A cache whose only entry, under ["latest"], was stored at time 0. *)
Definition sample_cache : cache :=
  {[ "latest" := Row 0 (to_dict null_record) ]}.

(** ** Health and passthrough endpoints, and the route table *)

Definition ping : handler value := hret (VDict [("ok", VBool true)]).

Definition healthz : handler value := hret (VDict [("ok", VBool true)]).

(** The raw passthrough.  The body runs once the framework has validated
    the query parameter [sol] (default 0, [ge=0]); see [query_sol]. *)
Definition maas (E : env) (sol : Z) : handler value :=
  (let path := if sol =? 0 then "/" else "/" +:+ int_str sol in
   data <- lift (_fetch_maas E path) ;;
   if negb (py_truthy data)
   then hraise (HTTPException 502 "Empty MAAS response")
   else hret data)%hd.

(** The requests the application routes, one per [@app.get] *)
Inductive request : Type :=
| GetPing
| GetHealthz
| GetWeatherLatest
| GetWeatherBySol (n : Z)
| GetMaas (n : Z)
| GetBriefLatest
| GetBriefBySol (n : Z).

Definition serve {rt : PyRuntime} (E : env) (q : request) : handler value :=
  match q with
  | GetPing => ping
  | GetHealthz => healthz
  | GetWeatherLatest => weather_latest E
  | GetWeatherBySol n => weather_by_sol E n
  | GetMaas n => maas E n
  | GetBriefLatest => ai_brief_latest E
  | GetBriefBySol n => ai_brief_by_sol E n
  end.

(** The cache after a sequence of requests, each with what it sees of the
    outside world *)
Fixpoint serve_all {rt : PyRuntime} (qs : list (env * request)) (CACHE : cache) : cache :=
  match qs with
  | [] => CACHE
  | (E, q) :: rest => serve_all rest (snd (serve E q CACHE))
  end.

(** The members of the upstream object that [_normalize_maas] reads *)
Definition input_members : list string :=
  [ "sol"; "terrestrial_date"; "season"; "min_temp"; "max_temp"; "min_gts_temp";
    "max_gts_temp"; "pressure"; "pressure_string"; "sunrise"; "sunset";
    "local_uv_irradiance_index"; "atmo_opacity" ].

(** The three LLM settings are set and not empty. *)
Definition llm_configured (E : env) : bool :=
  getenv_truthy (LLM_API_URL E) && getenv_truthy (LLM_API_KEY E)
  && getenv_truthy (LLM_MODEL E).

(** What the LLM endpoint answers to [prompt] under the settings of [E] *)
Definition llm_reply (E : env) (prompt : string) : post_reply :=
  requests_post E (default EmptyString (LLM_API_URL E))
    (default EmptyString (LLM_API_KEY E)) (default EmptyString (LLM_MODEL E)) prompt.

(** The text at [choices[0].message.content] of a response body, if any *)
Definition content_of (data : value) : option string :=
  match data with
  | VDict kvs =>
      match assoc "choices" kvs with
      | Some (VList (VDict first :: _)) =>
          match assoc "message" first with
          | Some (VDict message) =>
              match assoc "content" message with
              | Some (VStr s) => Some s
              | _ => None
              end
          | _ => None
          end
      | _ => None
      end
  | _ => None
  end.

(** The upstream URL of the latest sol and of sol [n] *)
Definition latest_url (E : env) : string := MAAS_BASE E +:+ "/".

Definition sol_url (E : env) (n : Z) : string := MAAS_BASE E +:+ "/" +:+ int_str n.

(** The upstream is down, later than in [env_upstream_down]. *)
Definition env_down_later : env :=
  sample_env (GetRaised "timed out") None None None (PostRaised "unused") 2000.

(** The LLM answers 200 with a well-formed body. *)
Definition llm_body : value :=
  VDict [("choices",
          VList [VDict [("message", VDict [("content", VStr " Cold and clear. ")])]])].

Definition env_llm_ok : env :=
  sample_env (GetJson (VDict sample_raw))
    (Some "https://llm.example/v1/chat/completions") (Some "key") (Some "model")
    (PostResponse 200 (Some llm_body)) 1000.

(** The model setting is set but empty. *)
Definition env_llm_empty_model : env :=
  sample_env (GetJson (VDict sample_raw))
    (Some "https://llm.example/v1/chat/completions") (Some "key") (Some EmptyString)
    (PostResponse 200 (Some llm_body)) 1000.

(** ** The response of the framework *)





(** The upstream answers with the list [[1]]. *)
Definition env_list_body : env :=
  sample_env (GetJson (VList [VInt 1])) None None None (PostRaised "unused") 1000.


(** * Properties *)

(** ** The cache *)

Lemma TTL_900 : (TTL == 900)%Q.
Proof. reflexivity. Qed.

Lemma older_than_TTL (d : Q) : negb (Qle_bool d TTL) = true <-> (900 < d)%Q.
Proof.
  rewrite negb_true_iff, <- not_true_iff_false, Qle_bool_iff, TTL_900.
  split; [apply Qnot_le_lt | apply Qlt_not_le].
Qed.

Lemma within_TTL (d : Q) : negb (Qle_bool d TTL) = false <-> (d <= 900)%Q.
Proof. rewrite negb_false_iff, Qle_bool_iff, TTL_900. reflexivity. Qed.

(** C2.  A value stored by [_set_cached] at time [T] is returned unchanged
    by [_get_cached] at any time [T'] with [T' - T <= 900], and the cache is
    left as it was; a read with [T' - T > 900] returns [None] and deletes
    the entry, so that it is absent from the cache afterwards and any later
    read finds nothing. *)
Theorem cache_freshness (key : string) (x : value) (T T' : Q) (CACHE : cache) :
  let stored := snd (_set_cached T key x CACHE) in
  ((T' - T <= 900)%Q -> _get_cached T' key stored = (Ok x, stored))
  /\ ((900 < T' - T)%Q ->
      _get_cached T' key stored = (Ok VNone, delete key stored)
      /\ delete key stored !! key = None
      /\ forall T'', _get_cached T'' key (delete key stored)
                     = (Ok VNone, delete key stored)).
Proof.
  cbn [snd _set_cached]. split.
  - intros Hfresh. unfold _get_cached. rewrite lookup_insert_eq. cbn [row_t row_v].
    apply within_TTL in Hfresh. rewrite Hfresh. reflexivity.
  - intros Hstale. unfold _get_cached. rewrite lookup_insert_eq. cbn [row_t row_v].
    apply older_than_TTL in Hstale. rewrite Hstale.
    rewrite lookup_delete_eq. auto.
Qed.

Lemma cache_freshness_witness :
  _get_cached 1000 "latest" (snd (_set_cached 100 "latest" (VInt 7) ∅))
  = (Ok (VInt 7), snd (_set_cached 100 "latest" (VInt 7) ∅))
  /\ _get_cached 1001 "latest" (snd (_set_cached 100 "latest" (VInt 7) ∅))
     = (Ok VNone, delete "latest" (snd (_set_cached 100 "latest" (VInt 7) ∅))).
Proof.
  split.
  - apply (proj1 (cache_freshness "latest" (VInt 7) 100 1000 ∅)). vm_compute. discriminate.
  - apply (proj2 (cache_freshness "latest" (VInt 7) 100 1001 ∅)). vm_compute. reflexivity.
Defined.

(** ** Cache keys *)

Lemma to_int_not_nil (n : Z) :
  Z.to_int n <> Decimal.Pos Decimal.Nil /\ Z.to_int n <> Decimal.Neg Decimal.Nil.
Proof.
  destruct n as [|p|p]; cbn; split; try discriminate; intros [= H];
    exact (DecimalPos.Unsigned.to_uint_nonnil _ H).
Qed.

Lemma int_str_inj (n m : Z) : int_str n = int_str m -> n = m.
Proof.
  unfold int_str. intros H.
  apply (f_equal NilZero.int_of_string) in H.
  destruct (to_int_not_nil n) as [Hn1 Hn2], (to_int_not_nil m) as [Hm1 Hm2].
  rewrite !NilZero.isi in H by assumption.
  injection H. apply DecimalZ.to_int_inj.
Qed.

Lemma sol_key_inj (n m : Z) : sol_key n = sol_key m -> n = m.
Proof. unfold sol_key. cbn. intros [= H]. now apply int_str_inj. Qed.

Lemma latest_is_no_sol_key (n : Z) : latest_key <> sol_key n.
Proof. unfold latest_key, sol_key. cbn. discriminate. Qed.

(** ** The normaliser *)

Section Normaliser.
Context {rt : PyRuntime}.

Lemma to_float_opt (x : value) :
  to_float x = float_or_null (match py_float x with Ok f => Some f | Raise _ => None end).
Proof. unfold to_float. now destruct (py_float x). Qed.

Lemma normalize_dict (raw : list (string * value)) :
  _normalize_maas (VDict raw) = Ok (to_dict (record_of raw)).
Proof.
  unfold _normalize_maas, to_dict, record_of. cbn. now rewrite !to_float_opt.
Qed.

Lemma normalize_not_dict (d : value) :
  (forall raw, d <> VDict raw) -> _normalize_maas d = Raise AttributeError.
Proof. destruct d; intros H; try reflexivity. now destruct (H kvs). Qed.

Lemma member_absent (k : string) (raw : list (string * value)) :
  assoc k raw = None -> member k raw = VNone.
Proof. unfold member. now intros ->. Qed.

Lemma float_of_int_small (n : Z) :
  Z.abs n <= 1 -> float_of_int n = Ok (binary_normalize 53 1024 n 0 false).
Proof.
  intros H. assert (n = -1 \/ n = 0 \/ n = 1) as [-> | [-> | ->]] by lia; reflexivity.
Qed.

(** [to_float] gives null exactly on what [float()] rejects. *)
Lemma to_float_null_iff (x : value) : to_float x = VNone <-> float_rejects x.
Proof.
  unfold to_float. destruct x as [ | b | n | f | s | xs | kvs ]; cbn; try tauto.
  - destruct b; cbn; (split; [discriminate | tauto]).
  - unfold float_of_int. destruct (binary_normalize 53 1024 n 0 false) eqn:Hn; split;
      try discriminate; try (intros [s' [=]]); eauto.
  - split; [discriminate | tauto].
  - destruct (float_of_str s); split; congruence.
Qed.

(** C4.  On every JSON object the normaliser returns a dict whose keys are
    exactly the fixed field list, in order and without repetition, with
    [source] the constant tag and [temperature_c] a dict with exactly the
    keys [min], [max], [min_gts], [max_gts].  Every passed-through field
    holds the input member of the fixed renaming and every numeric field the
    coercion of its input member, which is null when the input does not
    supply the member. *)
Theorem normalize_fixed_shape (raw : list (string * value)) :
  exists fields temps,
    _normalize_maas (VDict raw) = Ok (VDict fields)
    /\ map fst fields = record_fields
    /\ NoDup record_fields
    /\ assoc "source" fields = Some (VStr "curiosity_rems_maas")
    /\ assoc "temperature_c" fields = Some (VDict temps)
    /\ map fst temps = temperature_fields
    /\ NoDup temperature_fields
    /\ Forall (fun f => assoc (fst f) fields = Some (member (snd f) raw)
                        /\ (assoc (snd f) raw = None -> assoc (fst f) fields = Some VNone))
              passthrough_fields
    /\ Forall (fun f => assoc (fst f) temps = Some (to_float (member (snd f) raw))
                        /\ (assoc (snd f) raw = None -> assoc (fst f) temps = Some VNone))
              temperature_members
    /\ assoc "pressure_pa" fields = Some (to_float (member "pressure" raw))
    /\ (assoc "pressure" raw = None -> assoc "pressure_pa" fields = Some VNone).
Proof.
  rewrite normalize_dict. unfold to_dict. eexists _, _.
  split; [reflexivity |].
  split; [reflexivity |].
  split; [apply (bool_decide_unpack _); vm_compute; reflexivity |].
  split; [reflexivity |].
  split; [reflexivity |].
  split; [reflexivity |].
  split; [apply (bool_decide_unpack _); vm_compute; reflexivity |].
  repeat apply conj.
  - repeat constructor; cbn; intros H; now rewrite (member_absent _ _ H).
  - repeat constructor; cbn; rewrite ?to_float_opt; try reflexivity;
      intros H; now rewrite (member_absent _ _ H).
  - cbn. now rewrite to_float_opt.
  - cbn. intros H. now rewrite (member_absent _ _ H).
Qed.

End Normaliser.

(** ** The deterministic summary *)

Lemma prefix_app_sep (p a b : string) (c : ascii) :
  char_in c p = false -> String.prefix p (a +:+ String c b) = String.prefix p a.
Proof.
  revert a. induction p as [| x p IH]; intros a Hc.
  - now destruct a.
  - cbn in Hc. apply orb_false_elim in Hc as [Hx Hp].
    destruct a as [| y a]; simpl.
    + destruct (ascii_dec x c) as [-> |]; [| reflexivity].
      now rewrite Ascii.eqb_refl in Hx.
    + destruct (ascii_dec x y); [now apply IH | reflexivity].
Qed.

(** An occurrence of [p] cannot run over a character that [p] lacks. *)
Lemma occurs_app_sep (p a b : string) (c : ascii) :
  char_in c p = false ->
  occurs_in p (a +:+ String c b) = occurs_in p a || occurs_in p b.
Proof.
  intros Hc. induction a as [| y a IH].
  - change (EmptyString +:+ String c b) with (String c b). cbn [occurs_in].
    rewrite (prefix_app_sep p EmptyString b c Hc
             : String.prefix p (String c b) = String.prefix p EmptyString).
    now rewrite orb_false_r.
  - change (String y a +:+ String c b) with (String y (a +:+ String c b)).
    cbn [occurs_in]. rewrite IH.
    rewrite (prefix_app_sep p (String y a) b c Hc
             : String.prefix p (String y (a +:+ String c b)) = String.prefix p (String y a)).
    now rewrite orb_assoc.
Qed.

Lemma occurs_empty (p : string) : p <> EmptyString -> occurs_in p EmptyString = false.
Proof. destruct p; [congruence | reflexivity]. Qed.

Lemma occurs_concat (p : string) (c : ascii) (l : list string) :
  char_in c p = false -> p <> EmptyString ->
  occurs_in p (String.concat (String c EmptyString) l) = existsb (occurs_in p) l.
Proof.
  intros Hc Hp. induction l as [| x l IH].
  - cbn. now apply occurs_empty.
  - destruct l as [| y l].
    + cbn. now rewrite orb_false_r.
    + change (String.concat (String c EmptyString) (x :: y :: l))
        with (x +:+ String c (String.concat (String c EmptyString) (y :: l))).
      rewrite occurs_app_sep by assumption. now rewrite IH.
Qed.

(** A label, a blank-like separator, an interpolated text, a separator and a
    tail: [p] can only occur inside the interpolated text. *)
Lemma occurs_labelled (p label s post : string) (c d : ascii) :
  char_in c p = false -> char_in d p = false ->
  occurs_in p label = false -> occurs_in p post = false ->
  occurs_in p (label +:+ String c (s +:+ String d post)) = occurs_in p s.
Proof.
  intros Hc Hd Hl Hp. rewrite !occurs_app_sep by assumption.
  rewrite Hl, Hp. now rewrite orb_false_r.
Qed.

Lemma occurs_labelled2 (p label a mid b post : string) (c d e f : ascii) :
  char_in c p = false -> char_in d p = false ->
  char_in e p = false -> char_in f p = false ->
  occurs_in p label = false -> occurs_in p mid = false -> occurs_in p post = false ->
  occurs_in p (label +:+ String c (a +:+ String d (mid +:+ String e (b +:+ String f post))))
  = occurs_in p a || occurs_in p b.
Proof.
  intros Hc Hd He Hf Hl Hm Hp. rewrite !occurs_app_sep by assumption.
  rewrite Hl, Hm, Hp. now rewrite orb_false_r.
Qed.

Section Formatter.
Context {rt : PyRuntime}.

(** The formatter emits the clauses of the record, joined by single blanks. *)
Lemma format_brief_clauses (r : WeatherRecord) :
  _format_brief (to_dict r) = Ok (String.concat " " (brief_clauses r)).
Proof.
  destruct r as [so da se tmin tmax tming tmaxg pr pq sr ss uv sky].
  unfold brief_clauses, lead_clause, temp_clause, pressure_clause, season_clause,
    opacity_clause, uv_clause, _format_brief, to_dict.
  cbn -[String.append String.concat].
  destruct tmin, tmax, pr; cbn -[String.append String.concat];
    destruct (py_truthy se), (py_truthy sky), (py_truthy uv); reflexivity.
Qed.

Lemma format_brief_total (x : value) :
  is_weather_record x -> exists text, _format_brief x = Ok text.
Proof. intros [r ->]. rewrite format_brief_clauses. eauto. Qed.

Lemma occurs_lead (a b : string) :
  occurs_in "Pressure:" ("Mars (Curiosity/REMS) — Sol " +:+ a +:+ " (" +:+ b +:+ ").")
  = occurs_in "Pressure:" a || occurs_in "Pressure:" b.
Proof.
  apply (occurs_labelled2 "Pressure:" "Mars (Curiosity/REMS) — Sol" a EmptyString b "."
           " " " " "(" ")"); reflexivity.
Qed.

Lemma occurs_temp_both (a b : string) :
  occurs_in "Pressure:" ("Temp: " +:+ a +:+ "°C to " +:+ b +:+ "°C.")
  = occurs_in "Pressure:" a || occurs_in "Pressure:" b.
Proof.
  apply (occurs_labelled2 "Pressure:" "Temp:" a
           (String (ascii_of_nat 176) "C to") b (String (ascii_of_nat 176) "C.")
           " " (ascii_of_nat 194) " " (ascii_of_nat 194)); reflexivity.
Qed.

Lemma occurs_temp_min (a : string) :
  occurs_in "Pressure:" ("Temp: min " +:+ a +:+ "°C, max ?°C.") = occurs_in "Pressure:" a.
Proof.
  apply (occurs_labelled "Pressure:" "Temp: min" a
           (String (ascii_of_nat 176) "C, max ?°C.") " " (ascii_of_nat 194)); reflexivity.
Qed.

Lemma occurs_temp_max (a : string) :
  occurs_in "Pressure:" ("Temp: min ?°C, max " +:+ a +:+ "°C.") = occurs_in "Pressure:" a.
Proof.
  apply (occurs_labelled "Pressure:" "Temp: min ?°C, max" a
           (String (ascii_of_nat 176) "C.") " " (ascii_of_nat 194)); reflexivity.
Qed.

Lemma occurs_season (a : string) :
  occurs_in "Pressure:" ("Season: " +:+ a +:+ ".") = occurs_in "Pressure:" a.
Proof.
  apply (occurs_labelled "Pressure:" "Season:" a EmptyString " " "."); reflexivity.
Qed.

Lemma occurs_opacity (a : string) :
  occurs_in "Pressure:" ("Atmospheric opacity: " +:+ a +:+ ".") = occurs_in "Pressure:" a.
Proof.
  apply (occurs_labelled "Pressure:" "Atmospheric opacity:" a EmptyString " " ".");
    reflexivity.
Qed.

Lemma occurs_uv (a : string) :
  occurs_in "Pressure:" ("UV Index: " +:+ a +:+ ".") = occurs_in "Pressure:" a.
Proof.
  apply (occurs_labelled "Pressure:" "UV Index:" a EmptyString " " "."); reflexivity.
Qed.

Lemma occurs_without_pressure (r : WeatherRecord) :
  pressure_pa r = None ->
  occurs_in "Pressure:" (String.concat " " (brief_clauses r))
  = existsb (occurs_in "Pressure:") (interpolated_texts r).
Proof.
  intros Hp. rewrite occurs_concat by (reflexivity || discriminate).
  unfold brief_clauses, interpolated_texts, pressure_clause, lead_clause, temp_clause,
    season_clause, opacity_clause, uv_clause.
  rewrite Hp.
  destruct (temp_min r), (temp_max r), (py_truthy (season r)),
    (py_truthy (atmo_opacity r)), (py_truthy (uv_index r));
    cbn [existsb app];
    rewrite occurs_lead, ?occurs_temp_both, ?occurs_temp_min, ?occurs_temp_max,
      ?occurs_season, ?occurs_opacity, ?occurs_uv;
    rewrite ?orb_false_r, ?orb_assoc; reflexivity.
Qed.

(** C8 (amended).  For every normalised record the formatter returns the
    clauses of the record joined by single blanks, in the fixed order: the
    leading clause always; the temperature clause with one decimal when both
    bounds are present and the min/max form with a question mark when exactly
    one is; the pressure clause, rounded to an integer, when the pressure is
    not null; the season, opacity and UV clauses when their field is truthy.
    A record with a null pressure has no pressure clause, and its text
    contains "Pressure:" exactly when one of the interpolated field texts
    contains it. *)
Theorem format_brief_spec (r : WeatherRecord) :
  _format_brief (to_dict r) = Ok (String.concat " " (brief_clauses r))
  /\ brief_clauses r
     = ([lead_clause r] ++ temp_clause r ++ pressure_clause r ++ season_clause r
                        ++ opacity_clause r ++ uv_clause r)%list
  /\ (pressure_pa r = None ->
      pressure_clause r = []
      /\ occurs_in "Pressure:" (String.concat " " (brief_clauses r))
         = existsb (occurs_in "Pressure:") (interpolated_texts r)).
Proof.
  split; [apply format_brief_clauses |]. split; [reflexivity |].
  intros Hp. split; [| now apply occurs_without_pressure].
  unfold pressure_clause. now rewrite Hp.
Qed.

End Formatter.

Section NormaliserContract.
Context {rt : PyRuntime}.

Lemma py_float_bool (b : bool) :
  py_float (VBool b) = Ok (if b then float_one else float_zero).
Proof. now destruct b. Qed.

Lemma record_field_null_iff (x : value) :
  match py_float x with Ok f => Some f | Raise _ => None end = None <-> float_rejects x.
Proof.
  rewrite <- to_float_null_iff, to_float_opt.
  destruct (py_float x); cbn; split; congruence.
Qed.

(** C3 (amended).  On every JSON object the normaliser returns a record and
    never raises.  Each numeric field is null exactly when [float()] rejects
    the input member: a missing or null member, an array, an object, text
    that [float()] cannot read, or an integer beyond the range of doubles; a
    missing member in particular gives null.  A JSON boolean is accepted by
    [float()] and gives 1.0 or 0.0.  The empty object gives the record with
    every field null. *)
Theorem normalize_never_raises (raw : list (string * value)) :
  (exists r,
      _normalize_maas (VDict raw) = Ok (to_dict r)
      /\ Forall (fun m =>
                   (snd m r = None <-> float_rejects (member (fst m) raw))
                   /\ (assoc (fst m) raw = None -> snd m r = None)
                   /\ (forall b, member (fst m) raw = VBool b ->
                                 snd m r = Some (if b then float_one else float_zero)))
                numeric_members)
  /\ _normalize_maas (VDict []) = Ok (to_dict null_record).
Proof.
  split; [| reflexivity].
  exists (record_of raw). split; [apply normalize_dict |].
  repeat constructor; cbn [fst snd record_of temp_min temp_max temp_min_gts
                             temp_max_gts pressure_pa];
    try apply record_field_null_iff;
    try (intros H; now rewrite (member_absent _ _ H));
    try (intros b H; now rewrite H, py_float_bool).
Qed.

End NormaliserContract.

(** ** The weather endpoints *)

Lemma get_cached_hit (now : Q) (key : string) (CACHE : cache) :
  cache_hit now key CACHE = true ->
  exists r, CACHE !! key = Some r
            /\ py_truthy (row_v r) = true
            /\ _get_cached now key CACHE = (Ok (row_v r), CACHE).
Proof.
  unfold cache_hit, _get_cached. destruct (CACHE !! key) as [r |]; [| discriminate].
  intros [Hfresh Htruthy]%andb_prop. exists r. rewrite Hfresh. auto.
Qed.

Lemma get_cached_miss (now : Q) (key : string) (CACHE : cache) :
  cache_hit now key CACHE = false ->
  exists x, py_truthy x = false
            /\ _get_cached now key CACHE = (Ok x, after_lookup now key CACHE).
Proof.
  unfold cache_hit, _get_cached, after_lookup, cache_expired.
  destruct (CACHE !! key) as [r |]; [| exists VNone; auto].
  destruct (Qle_bool (now - row_t r) TTL); cbn; [| exists VNone; auto].
  intros Hfalsy. exists (row_v r). auto.
Qed.

Lemma after_lookup_other (now : Q) (key k : string) (CACHE : cache) :
  k <> key -> after_lookup now key CACHE !! k = CACHE !! k.
Proof.
  intros Hk. unfold after_lookup.
  destruct (cache_expired now key CACHE); [| reflexivity]. now apply lookup_delete_ne.
Qed.

(** A lookup creates and replaces nothing. *)
Lemma after_lookup_sub (now : Q) (key k : string) (CACHE : cache) (r : row) :
  after_lookup now key CACHE !! k = Some r -> CACHE !! k = Some r.
Proof.
  unfold after_lookup. destruct (cache_expired now key CACHE); [| auto].
  rewrite lookup_delete. now case_decide.
Qed.

Lemma after_lookup_fresh (now : Q) (key : string) (CACHE : cache) :
  cache_expired now key CACHE = false -> after_lookup now key CACHE = CACHE.
Proof. unfold after_lookup. now intros ->. Qed.

Lemma no_data_guard (data : value) :
  negb (py_truthy data)
  || match data with
     | VDict kvs => py_truthy (default VNone (assoc "error" kvs))
     | _ => false
     end
  = reports_no_data data.
Proof.
  destruct data as [ | [|] | n | [ | | | ] | [|] | [|] | [| kv kvs] ]; cbn;
    rewrite ?negb_involutive, ?orb_false_r; reflexivity.
Qed.

Section Endpoints.
Context {rt : PyRuntime}.
Variable E : env.

Lemma weather_latest_hit (CACHE : cache) :
  cache_hit (time_lookup E) latest_key CACHE = true ->
  exists r, CACHE !! latest_key = Some r
            /\ weather_latest E CACHE = (Ok (row_v r), CACHE).
Proof.
  intros (r & Hr & Ht & Hget)%get_cached_hit. exists r. split; [assumption |].
  unfold weather_latest, hbind. fold latest_key. now rewrite Hget, Ht.
Qed.

Lemma weather_latest_miss (CACHE : cache) :
  cache_hit (time_lookup E) latest_key CACHE = false ->
  weather_latest E CACHE
  = let CACHE' := after_lookup (time_lookup E) latest_key CACHE in
    match _fetch_maas E "/" with
    | Raise e => (Raise e, CACHE')
    | Ok data =>
        match _normalize_maas data with
        | Raise e => (Raise e, CACHE')
        | Ok out => (Ok out, <[latest_key := Row (time_store E) out]> CACHE')
        end
    end.
Proof.
  intros (x & Hx & Hget)%get_cached_miss.
  unfold weather_latest, hbind. fold latest_key. rewrite Hget, Hx. unfold lift.
  destruct (_fetch_maas E "/") as [data | e]; [| reflexivity].
  destruct (_normalize_maas data); reflexivity.
Qed.

Lemma weather_by_sol_hit (n : Z) (CACHE : cache) :
  cache_hit (time_lookup E) (sol_key n) CACHE = true ->
  exists r, CACHE !! sol_key n = Some r
            /\ weather_by_sol E n CACHE = (Ok (row_v r), CACHE).
Proof.
  intros (r & Hr & Ht & Hget)%get_cached_hit. exists r. split; [assumption |].
  unfold weather_by_sol, hbind. fold (sol_key n). now rewrite Hget, Ht.
Qed.

Lemma weather_by_sol_miss (n : Z) (CACHE : cache) :
  cache_hit (time_lookup E) (sol_key n) CACHE = false ->
  weather_by_sol E n CACHE
  = let CACHE' := after_lookup (time_lookup E) (sol_key n) CACHE in
    match _fetch_maas E ("/" +:+ int_str n) with
    | Raise e => (Raise e, CACHE')
    | Ok data =>
        if reports_no_data data
        then (Raise (HTTPException 404 ("No data for sol " +:+ int_str n)), CACHE')
        else
          match _normalize_maas data with
          | Raise e => (Raise e, CACHE')
          | Ok out => (Ok out, <[sol_key n := Row (time_store E) out]> CACHE')
          end
    end.
Proof.
  intros (x & Hx & Hget)%get_cached_miss.
  unfold weather_by_sol, hbind. fold (sol_key n). rewrite Hget, Hx. unfold lift.
  destruct (_fetch_maas E ("/" +:+ int_str n)) as [data | e]; [| reflexivity].
  rewrite no_data_guard. destruct (reports_no_data data); [reflexivity |].
  destruct (_normalize_maas data); reflexivity.
Qed.

Lemma normalize_cases (data : value) :
  (exists raw, data = VDict raw /\ _normalize_maas data = Ok (to_dict (record_of raw)))
  \/ _normalize_maas data = Raise AttributeError.
Proof.
  destruct data; try (right; reflexivity). left. eexists. split; [reflexivity |].
  apply normalize_dict.
Qed.

Lemma fetch_cases (path : string) :
  (exists data, requests_get E (MAAS_BASE E +:+ path) = GetJson data
                /\ _fetch_maas E path = Ok data)
  \/ (exists msg, requests_get E (MAAS_BASE E +:+ path) = GetRaised msg
                  /\ _fetch_maas E path
                     = Raise (HTTPException 502 ("Upstream MAAS error: " +:+ msg)))
  \/ (exists u, requests_get E (MAAS_BASE E +:+ path) = GetUncaught u
                /\ _fetch_maas E path = Raise (uncaught_exn u)).
Proof.
  unfold _fetch_maas. destruct (requests_get E (MAAS_BASE E +:+ path)); eauto.
Qed.

(** What a failed weather lookup leaves behind *)
Lemma weather_latest_raise (CACHE CACHE' : cache) (e : exn) :
  weather_latest E CACHE = (Raise e, CACHE') ->
  cache_hit (time_lookup E) latest_key CACHE = false
  /\ CACHE' = after_lookup (time_lookup E) latest_key CACHE.
Proof.
  destruct (cache_hit (time_lookup E) latest_key CACHE) eqn:Hhit.
  - destruct (weather_latest_hit _ Hhit) as (r & _ & ->). discriminate.
  - rewrite (weather_latest_miss _ Hhit). cbv zeta.
    destruct (_fetch_maas E "/") as [data | e']; [| now intros [= _ <-]].
    destruct (_normalize_maas data); [discriminate | now intros [= _ <-]].
Qed.

Lemma weather_by_sol_raise (n : Z) (CACHE CACHE' : cache) (e : exn) :
  weather_by_sol E n CACHE = (Raise e, CACHE') ->
  cache_hit (time_lookup E) (sol_key n) CACHE = false
  /\ CACHE' = after_lookup (time_lookup E) (sol_key n) CACHE.
Proof.
  destruct (cache_hit (time_lookup E) (sol_key n) CACHE) eqn:Hhit.
  - destruct (weather_by_sol_hit _ _ Hhit) as (r & _ & ->). discriminate.
  - rewrite (weather_by_sol_miss _ _ Hhit). cbv zeta.
    destruct (_fetch_maas E ("/" +:+ int_str n)) as [data | e']; [| now intros [= _ <-]].
    destruct (reports_no_data data); [now intros [= _ <-] |].
    destruct (_normalize_maas data); [discriminate | now intros [= _ <-]].
Qed.

Lemma weather_by_sol_answer_miss (n : Z) (CACHE : cache) :
  cache_hit (time_lookup E) (sol_key n) CACHE = false ->
  fst (weather_by_sol E n CACHE)
  = match requests_get E (MAAS_BASE E +:+ "/" +:+ int_str n) with
    | GetRaised msg => Raise (HTTPException 502 ("Upstream MAAS error: " +:+ msg))
    | GetUncaught u => Raise (uncaught_exn u)
    | GetJson data =>
        if reports_no_data data
        then Raise (HTTPException 404 ("No data for sol " +:+ int_str n))
        else _normalize_maas data
    end.
Proof.
  intros Hhit. rewrite (weather_by_sol_miss _ _ Hhit). cbv zeta. unfold _fetch_maas.
  destruct (requests_get E (MAAS_BASE E +:+ "/" +:+ int_str n)) as [data | msg | u];
    [| reflexivity | reflexivity].
  destruct (reports_no_data data); [reflexivity |].
  destruct (_normalize_maas data); reflexivity.
Qed.

(** The normaliser alone answers 200 or 500. *)
Lemma normalize_status (data : value) :
  http_status (_normalize_maas data) = 200 \/ http_status (_normalize_maas data) = 500.
Proof. destruct (normalize_cases data) as [(raw & -> & ->) | ->]; cbn; auto. Qed.

(** C7 (amended).  [GET /weather/{sol}] answers 404 exactly when it asks
    the upstream (no fresh cached record for the sol) and the upstream
    reports no data, as it does with [{"error": "not found"}]; it answers 502
    exactly when it asks the upstream and the call fails with a
    [RequestException]; when the upstream answers with an object that carries
    data, it returns the normalised record; and when the upstream answers
    with a truthy body that is no object (a non-empty list, a number, text),
    it raises [AttributeError], which is answered with 500. *)
Theorem weather_by_sol_status (n : Z) (CACHE : cache) :
  let reply := requests_get E (MAAS_BASE E +:+ "/" +:+ int_str n) in
  let answer := fst (weather_by_sol E n CACHE) in
  let asks := negb (cache_hit (time_lookup E) (sol_key n) CACHE) in
  (http_status answer = 404
   <-> asks = true /\ exists data, reply = GetJson data /\ reports_no_data data = true)
  /\ (asks = true -> reply = GetJson (VDict [("error", VStr "not found")]) ->
      http_status answer = 404)
  /\ (http_status answer = 502 <-> asks = true /\ exists msg, reply = GetRaised msg)
  /\ (asks = true -> forall raw,
        reply = GetJson (VDict raw) -> reports_no_data (VDict raw) = false ->
        answer = Ok (to_dict (record_of raw)))
  /\ (asks = true -> forall data,
        reply = GetJson data -> reports_no_data data = false ->
        (forall raw, data <> VDict raw) ->
        answer = Raise AttributeError /\ http_status answer = 500).
Proof.
  cbv zeta.
  destruct (cache_hit (time_lookup E) (sol_key n) CACHE) eqn:Hhit; cbn [negb].
  - destruct (weather_by_sol_hit _ _ Hhit) as (r & _ & ->). cbn.
    refine (conj _ (conj _ (conj _ (conj _ _)))); try discriminate;
      (split; [discriminate | intros []; discriminate]).
  - rewrite (weather_by_sol_answer_miss _ _ Hhit).
    destruct (requests_get E (MAAS_BASE E +:+ "/" +:+ int_str n)) as [data | msg | u].
    + destruct (reports_no_data data) eqn:Hno; [| pose proof (normalize_status data) as Hst];
        refine (conj _ (conj _ (conj _ (conj _ _)))).
      * split; [eauto | reflexivity].
      * reflexivity.
      * split; [discriminate | intros [_ [msg [=]]]].
      * intros _ raw [= ->]. congruence.
      * intros _ data' [= <-]. congruence.
      * split; [lia | intros [_ (data' & [= <-] & Hno')]; congruence].
      * intros _ [= ->]. discriminate.
      * split; [lia | intros [_ [msg [=]]]].
      * intros _ raw [= ->] _. apply normalize_dict.
      * intros _ data' [= <-] _ Hne.
        rewrite (normalize_not_dict data Hne). split; reflexivity.
    + refine (conj _ (conj _ (conj _ (conj _ _)))).
      * split; [discriminate | intros [_ (data & [=] & _)]].
      * discriminate.
      * split; [eauto | reflexivity].
      * intros _ raw [=].
      * intros _ data [=].
    + refine (conj _ (conj _ (conj _ (conj _ _)))).
      * split; [destruct u; discriminate | intros [_ (data & [=] & _)]].
      * discriminate.
      * split; [destruct u; discriminate | intros [_ [msg [=]]]].
      * intros _ raw [=].
      * intros _ data [=].
Qed.

(** C10 (amended).  When [weather_latest] or [weather_by_sol] fails, with
    502, 404 or any other exception, no entry has been created or replaced:
    the cache differs from the one before the request at most by the entry
    of the requested key, which the lookup removed if it was older than the
    time-to-live; every other key is untouched, and without such an expired
    entry the cache is unchanged. *)
Theorem failed_lookup_cache (n : Z) (CACHE CACHE' : cache) (e : exn) :
  (weather_latest E CACHE = (Raise e, CACHE') ->
   CACHE' = after_lookup (time_lookup E) latest_key CACHE
   /\ (forall k r, CACHE' !! k = Some r -> CACHE !! k = Some r)
   /\ (forall k, k <> latest_key -> CACHE' !! k = CACHE !! k)
   /\ (cache_expired (time_lookup E) latest_key CACHE = false -> CACHE' = CACHE))
  /\ (weather_by_sol E n CACHE = (Raise e, CACHE') ->
      CACHE' = after_lookup (time_lookup E) (sol_key n) CACHE
      /\ (forall k r, CACHE' !! k = Some r -> CACHE !! k = Some r)
      /\ (forall k, k <> sol_key n -> CACHE' !! k = CACHE !! k)
      /\ (cache_expired (time_lookup E) (sol_key n) CACHE = false -> CACHE' = CACHE)).
Proof.
  split.
  - intros [_ ->]%weather_latest_raise. repeat apply conj.
    + reflexivity.
    + intros k r. apply after_lookup_sub.
    + intros k. apply after_lookup_other.
    + apply after_lookup_fresh.
  - intros [_ ->]%weather_by_sol_raise. repeat apply conj.
    + reflexivity.
    + intros k r. apply after_lookup_sub.
    + intros k. apply after_lookup_other.
    + apply after_lookup_fresh.
Qed.

End Endpoints.

Section Keys.
Context {rt : PyRuntime}.
Variable E : env.

Lemma weather_latest_frame (CACHE : cache) (k : string) :
  k <> latest_key -> snd (weather_latest E CACHE) !! k = CACHE !! k.
Proof.
  intros Hk. destruct (cache_hit (time_lookup E) latest_key CACHE) eqn:Hhit.
  - now destruct (weather_latest_hit E _ Hhit) as (r & _ & ->).
  - rewrite (weather_latest_miss E _ Hhit). cbv zeta.
    destruct (_fetch_maas E "/") as [data | e]; [| now apply after_lookup_other].
    destruct (_normalize_maas data); cbn [snd];
      rewrite ?lookup_insert_ne by congruence; now apply after_lookup_other.
Qed.

Lemma weather_by_sol_frame (n : Z) (CACHE : cache) (k : string) :
  k <> sol_key n -> snd (weather_by_sol E n CACHE) !! k = CACHE !! k.
Proof.
  intros Hk. destruct (cache_hit (time_lookup E) (sol_key n) CACHE) eqn:Hhit.
  - now destruct (weather_by_sol_hit E _ _ Hhit) as (r & _ & ->).
  - rewrite (weather_by_sol_miss E _ _ Hhit). cbv zeta.
    destruct (_fetch_maas E ("/" +:+ int_str n)) as [data | e];
      [| now apply after_lookup_other].
    destruct (reports_no_data data); [now apply after_lookup_other |].
    destruct (_normalize_maas data); cbn [snd];
      rewrite ?lookup_insert_ne by congruence; now apply after_lookup_other.
Qed.

Lemma weather_latest_stored (CACHE : cache) (out : value) :
  cache_hit (time_lookup E) latest_key CACHE = false ->
  fst (weather_latest E CACHE) = Ok out ->
  snd (weather_latest E CACHE) !! latest_key = Some (Row (time_store E) out).
Proof.
  intros Hhit. rewrite (weather_latest_miss E _ Hhit). cbv zeta.
  destruct (_fetch_maas E "/") as [data | e]; [| discriminate].
  destruct (_normalize_maas data); [| discriminate].
  cbn. intros [= ->]. apply lookup_insert_eq.
Qed.

Lemma weather_by_sol_stored (n : Z) (CACHE : cache) (out : value) :
  cache_hit (time_lookup E) (sol_key n) CACHE = false ->
  fst (weather_by_sol E n CACHE) = Ok out ->
  snd (weather_by_sol E n CACHE) !! sol_key n = Some (Row (time_store E) out).
Proof.
  intros Hhit. rewrite (weather_by_sol_miss E _ _ Hhit). cbv zeta.
  destruct (_fetch_maas E ("/" +:+ int_str n)) as [data | e]; [| discriminate].
  destruct (reports_no_data data); [discriminate |].
  destruct (_normalize_maas data); [| discriminate].
  cbn. intros [= ->]. apply lookup_insert_eq.
Qed.

Lemma fresh_entry_hits (now : Q) (key : string) (CACHE : cache) (r : row) :
  CACHE !! key = Some r -> (now - row_t r <= 900)%Q -> py_truthy (row_v r) = true ->
  cache_hit now key CACHE = true.
Proof.
  intros Hr Hfresh Ht. unfold cache_hit. rewrite Hr, Ht.
  apply within_TTL, negb_false_iff in Hfresh. now rewrite Hfresh.
Qed.

Lemma no_fresh_entry (now : Q) (key : string) (CACHE : cache) :
  (forall r, CACHE !! key = Some r -> (900 < now - row_t r)%Q) ->
  cache_hit now key CACHE = false
  /\ forall T x, <[key := Row T x]> (after_lookup now key CACHE)
                 = <[key := Row T x]> CACHE.
Proof.
  intros Hold. unfold cache_hit, after_lookup, cache_expired.
  destruct (CACHE !! key) as [r |] eqn:Hr; [| auto].
  pose proof (Hold r eq_refl) as H%older_than_TTL. rewrite H.
  apply negb_true_iff in H. rewrite H. split; [reflexivity |].
  intros T x. apply insert_delete_eq.
Qed.

Lemma weather_latest_reads_latest (CACHE : cache) (r : row) :
  CACHE !! "latest" = Some r ->
  (time_lookup E - row_t r <= 900)%Q -> py_truthy (row_v r) = true ->
  weather_latest E CACHE = (Ok (row_v r), CACHE).
Proof.
  intros Hr Hfresh Ht.
  destruct (weather_latest_hit E _ (fresh_entry_hits _ latest_key _ _ Hr Hfresh Ht))
    as (r' & Hr' & ->).
  unfold latest_key in Hr'. congruence.
Qed.

Lemma weather_latest_writes_latest (CACHE : cache) (raw : list (string * value)) :
  (forall r, CACHE !! "latest" = Some r -> (900 < time_lookup E - row_t r)%Q) ->
  requests_get E (MAAS_BASE E +:+ "/") = GetJson (VDict raw) ->
  weather_latest E CACHE
  = (Ok (to_dict (record_of raw)),
     <["latest" := Row (time_store E) (to_dict (record_of raw))]> CACHE).
Proof.
  intros Hold Hreply.
  destruct (no_fresh_entry (time_lookup E) latest_key CACHE Hold) as [Hhit Hins].
  rewrite (weather_latest_miss E _ Hhit). cbv zeta. unfold _fetch_maas.
  rewrite Hreply, normalize_dict. f_equal. apply Hins.
Qed.

Lemma weather_by_sol_reads_sol (n : Z) (CACHE : cache) (r : row) :
  CACHE !! ("sol:" +:+ int_str n) = Some r ->
  (time_lookup E - row_t r <= 900)%Q -> py_truthy (row_v r) = true ->
  weather_by_sol E n CACHE = (Ok (row_v r), CACHE).
Proof.
  intros Hr Hfresh Ht.
  destruct (weather_by_sol_hit E n _ (fresh_entry_hits _ (sol_key n) _ _ Hr Hfresh Ht))
    as (r' & Hr' & ->).
  unfold sol_key in Hr'. congruence.
Qed.

Lemma weather_by_sol_writes_sol (n : Z) (CACHE : cache) (raw : list (string * value)) :
  (forall r, CACHE !! ("sol:" +:+ int_str n) = Some r ->
             (900 < time_lookup E - row_t r)%Q) ->
  requests_get E (MAAS_BASE E +:+ "/" +:+ int_str n) = GetJson (VDict raw) ->
  reports_no_data (VDict raw) = false ->
  weather_by_sol E n CACHE
  = (Ok (to_dict (record_of raw)),
     <["sol:" +:+ int_str n := Row (time_store E) (to_dict (record_of raw))]> CACHE).
Proof.
  intros Hold Hreply Hdata.
  destruct (no_fresh_entry (time_lookup E) (sol_key n) CACHE Hold) as [Hhit Hins].
  rewrite (weather_by_sol_miss E _ _ Hhit). cbv zeta. unfold _fetch_maas.
  rewrite Hreply, Hdata, normalize_dict. f_equal. apply Hins.
Qed.

(** C9.  The latest-sol endpoint reads and writes the cache under the
    literal key "latest" only and the endpoint for sol [n] under "sol:"
    followed by the decimal text of [n] only, so that 5, however it was
    written in the request (5 or 05), goes to "sol:5"; "latest" is the key
    of no sol, and different sols have different keys.  Each endpoint does
    use its key: it returns the truthy value it finds there when that is at
    most 900 seconds old, and when it finds no entry or an older one there,
    it stores the record it fetches there. *)
Theorem cache_keys (n : Z) (CACHE : cache) :
  latest_key = "latest"
  /\ sol_key n = "sol:" +:+ int_str n
  /\ sol_key 5 = "sol:5"
  /\ option_map (fun d => sol_key (Z.of_int d)) (NilZero.int_of_string "5") = Some "sol:5"
  /\ option_map (fun d => sol_key (Z.of_int d)) (NilZero.int_of_string "05") = Some "sol:5"
  /\ latest_key <> sol_key n
  /\ (forall m, sol_key n = sol_key m -> n = m)
  /\ (forall k, k <> latest_key -> snd (weather_latest E CACHE) !! k = CACHE !! k)
  /\ (forall k, k <> sol_key n -> snd (weather_by_sol E n CACHE) !! k = CACHE !! k)
  /\ (forall out,
        cache_hit (time_lookup E) latest_key CACHE = false ->
        fst (weather_latest E CACHE) = Ok out ->
        snd (weather_latest E CACHE) !! latest_key = Some (Row (time_store E) out))
  /\ (forall out,
        cache_hit (time_lookup E) (sol_key n) CACHE = false ->
        fst (weather_by_sol E n CACHE) = Ok out ->
        snd (weather_by_sol E n CACHE) !! sol_key n = Some (Row (time_store E) out))
  /\ (forall r,
        CACHE !! "latest" = Some r ->
        (time_lookup E - row_t r <= 900)%Q -> py_truthy (row_v r) = true ->
        weather_latest E CACHE = (Ok (row_v r), CACHE))
  /\ (forall raw,
        (forall r, CACHE !! "latest" = Some r -> (900 < time_lookup E - row_t r)%Q) ->
        requests_get E (MAAS_BASE E +:+ "/") = GetJson (VDict raw) ->
        weather_latest E CACHE
        = (Ok (to_dict (record_of raw)),
           <["latest" := Row (time_store E) (to_dict (record_of raw))]> CACHE))
  /\ (forall r,
        CACHE !! ("sol:" +:+ int_str n) = Some r ->
        (time_lookup E - row_t r <= 900)%Q -> py_truthy (row_v r) = true ->
        weather_by_sol E n CACHE = (Ok (row_v r), CACHE))
  /\ (forall raw,
        (forall r, CACHE !! ("sol:" +:+ int_str n) = Some r ->
                   (900 < time_lookup E - row_t r)%Q) ->
        requests_get E (MAAS_BASE E +:+ "/" +:+ int_str n) = GetJson (VDict raw) ->
        reports_no_data (VDict raw) = false ->
        weather_by_sol E n CACHE
        = (Ok (to_dict (record_of raw)),
           <["sol:" +:+ int_str n := Row (time_store E) (to_dict (record_of raw))]> CACHE)).
Proof.
  do 5 (split; [reflexivity |]).
  split; [apply latest_is_no_sol_key |].
  split; [apply sol_key_inj |].
  split; [intros k; apply weather_latest_frame |].
  split; [intros k; apply weather_by_sol_frame |].
  split; [apply weather_latest_stored |].
  split; [apply weather_by_sol_stored |].
  split; [apply weather_latest_reads_latest |].
  split; [apply weather_latest_writes_latest |].
  split; [apply weather_by_sol_reads_sol | apply weather_by_sol_writes_sol].
Qed.

End Keys.

(** ** The cache holds records only *)

Lemma cache_ok_empty : cache_ok ∅.
Proof. intros key r. now rewrite lookup_empty. Qed.

Lemma cache_ok_after_lookup (now : Q) (key : string) (CACHE : cache) :
  cache_ok CACHE -> cache_ok (after_lookup now key CACHE).
Proof. intros Hok k r Hk. apply (Hok k). eapply after_lookup_sub, Hk. Qed.

Lemma cache_ok_insert (now : Q) (key : string) (x : value) (CACHE : cache) :
  is_weather_record x -> cache_ok CACHE -> cache_ok (<[key := Row now x]> CACHE).
Proof.
  intros Hx Hok k r. rewrite lookup_insert. case_decide.
  - now intros [= <-].
  - apply Hok.
Qed.

Section Summaries.
Context {rt : PyRuntime}.
Variable E : env.

Lemma normalize_record (data out : value) :
  _normalize_maas data = Ok out -> is_weather_record out.
Proof.
  destruct (normalize_cases data) as [(raw & -> & ->) | ->]; [| discriminate].
  intros [= <-]. now exists (record_of raw).
Qed.

(** What [weather_latest] returns is a record and the cache stays a cache
    of records. *)
Lemma weather_latest_ok (CACHE CACHE' : cache) (res : result value) :
  cache_ok CACHE -> weather_latest E CACHE = (res, CACHE') ->
  cache_ok CACHE' /\ forall d, res = Ok d -> is_weather_record d.
Proof.
  intros Hok. destruct (cache_hit (time_lookup E) latest_key CACHE) eqn:Hhit.
  - destruct (weather_latest_hit E _ Hhit) as (r & Hr & ->). intros [= <- <-].
    split; [assumption |]. intros d [= <-]. now apply (Hok latest_key).
  - rewrite (weather_latest_miss E _ Hhit). cbv zeta.
    pose proof (cache_ok_after_lookup (time_lookup E) latest_key _ Hok) as Hok'.
    destruct (_fetch_maas E "/") as [data | e];
      [| intros [= <- <-]; split; [assumption | discriminate]].
    destruct (_normalize_maas data) as [out | e] eqn:Hn;
      [| intros [= <- <-]; split; [assumption | discriminate]].
    apply normalize_record in Hn. intros [= <- <-]. split.
    + now apply cache_ok_insert.
    + now intros d [= <-].
Qed.

Lemma weather_by_sol_ok (n : Z) (CACHE CACHE' : cache) (res : result value) :
  cache_ok CACHE -> weather_by_sol E n CACHE = (res, CACHE') ->
  cache_ok CACHE' /\ forall d, res = Ok d -> is_weather_record d.
Proof.
  intros Hok. destruct (cache_hit (time_lookup E) (sol_key n) CACHE) eqn:Hhit.
  - destruct (weather_by_sol_hit E _ _ Hhit) as (r & Hr & ->). intros [= <- <-].
    split; [assumption |]. intros d [= <-]. now apply (Hok (sol_key n)).
  - rewrite (weather_by_sol_miss E _ _ Hhit). cbv zeta.
    pose proof (cache_ok_after_lookup (time_lookup E) (sol_key n) _ Hok) as Hok'.
    destruct (_fetch_maas E ("/" +:+ int_str n)) as [data | e];
      [| intros [= <- <-]; split; [assumption | discriminate]].
    destruct (reports_no_data data);
      [intros [= <- <-]; split; [assumption | discriminate] |].
    destruct (_normalize_maas data) as [out | e] eqn:Hn;
      [| intros [= <- <-]; split; [assumption | discriminate]].
    apply normalize_record in Hn. intros [= <- <-]. split.
    + now apply cache_ok_insert.
    + now intros d [= <-].
Qed.

(** The [try]/[except] of the summary endpoints, on a record *)
Lemma summary_cases (d : value) :
  is_weather_record d ->
  exists fallback,
    _format_brief d = Ok fallback
    /\ try_except
         (text <- _call_llm E (_prompt_from_weather d) ;;
          Ok (VDict [("mode", VStr "llm"); ("text", VStr text)]))%py
         (fun _ =>
            text <- _format_brief d ;;
            Ok (VDict [("mode", VStr "fallback"); ("text", VStr text)]))%py
       = match _call_llm E (_prompt_from_weather d) with
         | Ok text => Ok (brief "llm" text)
         | Raise _ => Ok (brief "fallback" fallback)
         end.
Proof.
  intros (fallback & Hf)%format_brief_total. exists fallback. split; [assumption |].
  destruct (_call_llm E (_prompt_from_weather d)); cbn; [reflexivity |].
  now rewrite Hf.
Qed.

Lemma ai_brief_latest_unfold (CACHE : cache) :
  ai_brief_latest E CACHE
  = match weather_latest E CACHE with
    | (Ok d, CACHE') =>
        (try_except
           (text <- _call_llm E (_prompt_from_weather d) ;;
            Ok (VDict [("mode", VStr "llm"); ("text", VStr text)]))%py
           (fun _ =>
              text <- _format_brief d ;;
              Ok (VDict [("mode", VStr "fallback"); ("text", VStr text)]))%py, CACHE')
    | (Raise e, CACHE') => (Raise e, CACHE')
    end.
Proof.
  unfold ai_brief_latest, hbind, lift.
  now destruct (weather_latest E CACHE) as [[d | e] CACHE'].
Qed.

Lemma ai_brief_by_sol_unfold (n : Z) (CACHE : cache) :
  ai_brief_by_sol E n CACHE
  = match weather_by_sol E n CACHE with
    | (Ok d, CACHE') =>
        (try_except
           (text <- _call_llm E (_prompt_from_weather d) ;;
            Ok (VDict [("mode", VStr "llm"); ("text", VStr text)]))%py
           (fun _ =>
              text <- _format_brief d ;;
              Ok (VDict [("mode", VStr "fallback"); ("text", VStr text)]))%py, CACHE')
    | (Raise e, CACHE') => (Raise e, CACHE')
    end.
Proof.
  unfold ai_brief_by_sol, hbind, lift.
  now destruct (weather_by_sol E n CACHE) as [[d | e] CACHE'].
Qed.

(** Both summary endpoints: the weather lookup decides between an error
    and a summary; the LLM call only decides which summary. *)
Lemma ai_brief_latest_cases (CACHE : cache) :
  cache_ok CACHE ->
  match weather_latest E CACHE with
  | (Ok d, CACHE') =>
      exists fallback,
        _format_brief d = Ok fallback
        /\ ai_brief_latest E CACHE
           = (match _call_llm E (_prompt_from_weather d) with
              | Ok text => Ok (brief "llm" text)
              | Raise _ => Ok (brief "fallback" fallback)
              end, CACHE')
  | (Raise e, CACHE') => ai_brief_latest E CACHE = (Raise e, CACHE')
  end.
Proof.
  intros Hok. rewrite ai_brief_latest_unfold.
  destruct (weather_latest E CACHE) as [[d | e] CACHE'] eqn:Hw; [| reflexivity].
  destruct (weather_latest_ok _ _ _ Hok Hw) as [_ Hd].
  destruct (summary_cases d (Hd d eq_refl)) as (fallback & Hf & ->). eauto.
Qed.

Lemma ai_brief_by_sol_cases (n : Z) (CACHE : cache) :
  cache_ok CACHE ->
  match weather_by_sol E n CACHE with
  | (Ok d, CACHE') =>
      exists fallback,
        _format_brief d = Ok fallback
        /\ ai_brief_by_sol E n CACHE
           = (match _call_llm E (_prompt_from_weather d) with
              | Ok text => Ok (brief "llm" text)
              | Raise _ => Ok (brief "fallback" fallback)
              end, CACHE')
  | (Raise e, CACHE') => ai_brief_by_sol E n CACHE = (Raise e, CACHE')
  end.
Proof.
  intros Hok. rewrite ai_brief_by_sol_unfold.
  destruct (weather_by_sol E n CACHE) as [[d | e] CACHE'] eqn:Hw; [| reflexivity].
  destruct (weather_by_sol_ok _ _ _ _ Hok Hw) as [_ Hd].
  destruct (summary_cases d (Hd d eq_refl)) as (fallback & Hf & ->). eauto.
Qed.

(** *** The LLM call *)

Lemma call_llm_unconfigured (prompt : string) :
  getenv_truthy (LLM_API_URL E) && getenv_truthy (LLM_API_KEY E)
    && getenv_truthy (LLM_MODEL E) = false ->
  _call_llm E prompt
  = Raise (RuntimeError "LLM not configured (set LLM_API_URL, LLM_API_KEY, LLM_MODEL).").
Proof. intros H. unfold _call_llm. now rewrite H. Qed.

Lemma getenv_absent (x y z : option string) :
  x = None \/ y = None \/ z = None ->
  getenv_truthy x && getenv_truthy y && getenv_truthy z = false.
Proof.
  intros [-> | [-> | ->]]; cbn; rewrite ?andb_false_r; reflexivity.
Qed.

Lemma getenv_present (s : string) : s <> EmptyString -> getenv_truthy (Some s) = true.
Proof. now destruct s. Qed.

Lemma missing_content_raises (data : value) :
  has_content data = false ->
  exists e,
    (choices <- subscript_key data "choices" ;;
     first <- subscript_0 choices ;;
     message <- subscript_key first "message" ;;
     content <- subscript_key message "content" ;;
     py_strip content)%py = Raise e.
Proof.
  unfold has_content, subscript_key.
  destruct data as [ | | | | | | kvs]; cbn; eauto.
  destruct (assoc "choices" kvs) as [[ | | | | [|] | [| [ | | | | | | first] ] | ] |];
    cbn; eauto.
  destruct (assoc "message" first) as [[ | | | | | | message] |]; cbn; eauto.
  destruct (assoc "content" message) as [[ | | | | | | ] |]; cbn; eauto.
  discriminate.
Qed.

Lemma call_llm_response (prompt url key model : string) (status : Z) (body : option value) :
  LLM_API_URL E = Some url -> LLM_API_KEY E = Some key -> LLM_MODEL E = Some model ->
  url <> EmptyString -> key <> EmptyString -> model <> EmptyString ->
  requests_post E url key model prompt = PostResponse status body ->
  200 <= status < 300 ->
  _call_llm E prompt
  = match body with
    | None => Raise (RequestException "JSONDecodeError")
    | Some data =>
        try_except
          (choices <- subscript_key data "choices" ;;
           first <- subscript_0 choices ;;
           message <- subscript_key first "message" ;;
           content <- subscript_key message "content" ;;
           py_strip content)%py
          (fun _ => Ok (py_str data))
    end.
Proof.
  intros Hu Hk Hm Hu' Hk' Hm' Hpost Hst. unfold _call_llm.
  rewrite Hu, Hk, Hm, !getenv_present by assumption. cbn.
  rewrite Hpost.
  replace ((400 <=? status) && (status <? 600)) with false; [reflexivity |].
  symmetry. apply andb_false_iff. left. lia.
Qed.

End Summaries.

(** C1 (amended).  [GET /ai/brief/latest] absorbs every failure of the LLM
    call: once the weather lookup has returned a record, the answer is a
    summary object, tagged "llm" with the text of the LLM, or tagged
    "fallback" with the text of the formatter when the LLM call raised.  A
    failure of the weather lookup itself is not absorbed: the endpoint raises
    what [weather_latest] raised, and answers 502 when it asks the upstream
    and the fetch fails. *)
Theorem ai_brief_latest_errors {rt : PyRuntime} (E : env) (CACHE : cache) :
  cache_ok CACHE ->
  (forall d CACHE',
      weather_latest E CACHE = (Ok d, CACHE') ->
      exists mode text,
        ai_brief_latest E CACHE = (Ok (brief mode text), CACHE')
        /\ ((mode = "llm" /\ _call_llm E (_prompt_from_weather d) = Ok text)
            \/ (mode = "fallback"
                /\ (exists e, _call_llm E (_prompt_from_weather d) = Raise e)
                /\ _format_brief d = Ok text)))
  /\ (forall e CACHE',
        weather_latest E CACHE = (Raise e, CACHE') ->
        ai_brief_latest E CACHE = (Raise e, CACHE'))
  /\ (cache_hit (time_lookup E) latest_key CACHE = false ->
      forall msg,
        requests_get E (MAAS_BASE E +:+ "/") = GetRaised msg ->
        http_status (fst (ai_brief_latest E CACHE)) = 502).
Proof.
  intros Hok. pose proof (ai_brief_latest_cases E CACHE Hok) as Hcases.
  split; [| split].
  - intros d CACHE' Hw. rewrite Hw in Hcases. destruct Hcases as (fallback & Hf & ->).
    destruct (_call_llm E (_prompt_from_weather d)) as [text | e].
    + exists "llm", text. auto.
    + exists "fallback", fallback. split; [reflexivity |]. right. eauto.
  - intros e CACHE' Hw. now rewrite Hw in Hcases.
  - intros Hhit msg Hget. rewrite ai_brief_latest_unfold, (weather_latest_miss E _ Hhit).
    cbv zeta. unfold _fetch_maas. now rewrite Hget.
Qed.

(** C5 (amended).  With the LLM configured and a 2xx response, a body that
    is not JSON makes the summary endpoints answer with the text of the
    deterministic formatter, tagged "fallback"; a JSON body without text at
    [choices[0].message.content] makes them answer with the string
    rendering of that body, tagged "llm". *)
Theorem malformed_llm_body {rt : PyRuntime} (E : env) (n : Z) (CACHE : cache)
    (url key model : string) (status : Z) (body : option value) :
  cache_ok CACHE ->
  LLM_API_URL E = Some url -> LLM_API_KEY E = Some key -> LLM_MODEL E = Some model ->
  url <> EmptyString -> key <> EmptyString -> model <> EmptyString ->
  200 <= status < 300 ->
  (forall d CACHE',
      weather_latest E CACHE = (Ok d, CACHE') ->
      requests_post E url key model (_prompt_from_weather d) = PostResponse status body ->
      (body = None ->
       exists text, _format_brief d = Ok text
                    /\ ai_brief_latest E CACHE = (Ok (brief "fallback" text), CACHE'))
      /\ (forall data,
            body = Some data -> has_content data = false ->
            ai_brief_latest E CACHE = (Ok (brief "llm" (py_str data)), CACHE')))
  /\ (forall d CACHE',
        weather_by_sol E n CACHE = (Ok d, CACHE') ->
        requests_post E url key model (_prompt_from_weather d) = PostResponse status body ->
        (body = None ->
         exists text, _format_brief d = Ok text
                      /\ ai_brief_by_sol E n CACHE = (Ok (brief "fallback" text), CACHE'))
        /\ (forall data,
              body = Some data -> has_content data = false ->
              ai_brief_by_sol E n CACHE = (Ok (brief "llm" (py_str data)), CACHE'))).
Proof.
  intros Hok Hu Hk Hm Hu' Hk' Hm' Hst. split.
  - intros d CACHE' Hw Hpost.
    pose proof (ai_brief_latest_cases E CACHE Hok) as Hcases. rewrite Hw in Hcases.
    destruct Hcases as (fallback & Hf & ->).
    rewrite (call_llm_response E _ _ _ _ _ _ Hu Hk Hm Hu' Hk' Hm' Hpost Hst). split.
    + intros ->. eauto.
    + intros data -> [e ->]%missing_content_raises. reflexivity.
  - intros d CACHE' Hw Hpost.
    pose proof (ai_brief_by_sol_cases E n CACHE Hok) as Hcases. rewrite Hw in Hcases.
    destruct Hcases as (fallback & Hf & ->).
    rewrite (call_llm_response E _ _ _ _ _ _ Hu Hk Hm Hu' Hk' Hm' Hpost Hst). split.
    + intros ->. eauto.
    + intros data -> [e ->]%missing_content_raises. reflexivity.
Qed.

(** C6.  When any of the three LLM settings is absent, the LLM call raises
    as a failed call does, and both summary endpoints answer with the text
    of the deterministic formatter tagged "fallback" whenever the weather
    lookup has returned; the answer is the one given under any other failure
    of the LLM call; the only errors that reach the client are those raised
    by the weather lookup. *)
Theorem unconfigured_llm_falls_back {rt : PyRuntime} (E : env) (n : Z) (CACHE : cache) :
  LLM_API_URL E = None \/ LLM_API_KEY E = None \/ LLM_MODEL E = None ->
  cache_ok CACHE ->
  (forall prompt, exists e, _call_llm E prompt = Raise e)
  /\ (forall d CACHE',
        weather_latest E CACHE = (Ok d, CACHE') ->
        exists text, _format_brief d = Ok text
                     /\ ai_brief_latest E CACHE = (Ok (brief "fallback" text), CACHE'))
  /\ (forall d CACHE',
        weather_by_sol E n CACHE = (Ok d, CACHE') ->
        exists text, _format_brief d = Ok text
                     /\ ai_brief_by_sol E n CACHE = (Ok (brief "fallback" text), CACHE'))
  /\ (forall e CACHE',
        weather_latest E CACHE = (Raise e, CACHE') ->
        ai_brief_latest E CACHE = (Raise e, CACHE'))
  /\ (forall e CACHE',
        weather_by_sol E n CACHE = (Raise e, CACHE') ->
        ai_brief_by_sol E n CACHE = (Raise e, CACHE'))
  /\ (forall E',
        (forall prompt, exists e, _call_llm E' prompt = Raise e) ->
        (weather_latest E' CACHE = weather_latest E CACHE ->
         ai_brief_latest E' CACHE = ai_brief_latest E CACHE)
        /\ (weather_by_sol E' n CACHE = weather_by_sol E n CACHE ->
            ai_brief_by_sol E' n CACHE = ai_brief_by_sol E n CACHE)).
Proof.
  intros Habsent Hok.
  assert (Hraise : forall prompt, exists e, _call_llm E prompt = Raise e).
  { intros prompt. eexists. apply call_llm_unconfigured. now apply getenv_absent. }
  pose proof (ai_brief_latest_cases E CACHE Hok) as Hl.
  pose proof (ai_brief_by_sol_cases E n CACHE Hok) as Hs.
  split; [exact Hraise |]. split; [| split; [| split; [| split]]].
  - intros d CACHE' Hw. rewrite Hw in Hl. destruct Hl as (text & Hf & ->).
    destruct (Hraise (_prompt_from_weather d)) as [e ->]. eauto.
  - intros d CACHE' Hw. rewrite Hw in Hs. destruct Hs as (text & Hf & ->).
    destruct (Hraise (_prompt_from_weather d)) as [e ->]. eauto.
  - intros e CACHE' Hw. now rewrite Hw in Hl.
  - intros e CACHE' Hw. now rewrite Hw in Hs.
  - intros E' Hraise'. split; intros Hsame.
    + pose proof (ai_brief_latest_cases E' CACHE Hok) as Hl'. rewrite Hsame in Hl'.
      destruct (weather_latest E CACHE) as [[d | e] CACHE']; [| congruence].
      destruct Hl as (text & Hf & ->), Hl' as (text' & Hf' & ->).
      destruct (Hraise (_prompt_from_weather d)) as [e ->].
      destruct (Hraise' (_prompt_from_weather d)) as [e' ->]. congruence.
    + pose proof (ai_brief_by_sol_cases E' n CACHE Hok) as Hs'. rewrite Hsame in Hs'.
      destruct (weather_by_sol E n CACHE) as [[d | e] CACHE']; [| congruence].
      destruct Hs as (text & Hf & ->), Hs' as (text' & Hf' & ->).
      destruct (Hraise (_prompt_from_weather d)) as [e ->].
      destruct (Hraise' (_prompt_from_weather d)) as [e' ->]. congruence.
Qed.

(** ** Requests whose outcome does not depend on the runtime *)

Section AnyRuntime.
Context {rt : PyRuntime}.

(** With the upstream down and an empty cache, the summary endpoint raises
    the 502 of the weather lookup. *)
Lemma brief_with_upstream_down :
  fst (ai_brief_latest env_upstream_down ∅)
  = Raise (HTTPException 502 "Upstream MAAS error: timed out").
Proof. reflexivity. Qed.

(** A boolean member is coerced to a float. *)
Lemma bool_member_coerced (b : bool) :
  (d <- _normalize_maas (VDict [("min_temp", VBool b)]) ;;
   t <- dict_get d "temperature_c" ;;
   dict_get t "min")%py = Ok (VFloat (if b then float_one else float_zero)).
Proof. now destruct b. Qed.

(** A JSON body without the expected content is returned as text. *)
Lemma brief_with_empty_object :
  fst (ai_brief_latest env_llm_empty_object ∅)
  = Ok (VDict [("mode", VStr "llm"); ("text", VStr "{}")]).
Proof. reflexivity. Qed.

(** The season text is interpolated verbatim. *)
Lemma brief_with_pressure_in_season :
  _format_brief (to_dict (record_of [("season", VStr "Pressure: high")]))
  = Ok "Mars (Curiosity/REMS) — Sol None (None). Season: Pressure: high.".
Proof. reflexivity. Qed.

(** A failed request has evicted the expired entry. *)
Lemma failed_request_evicts :
  fst (weather_latest env_upstream_down sample_cache)
  = Raise (HTTPException 502 "Upstream MAAS error: timed out")
  /\ snd (weather_latest env_upstream_down sample_cache) !! "latest" = None.
Proof. split; reflexivity. Qed.

(** A truthy body that is no object passes the guard and fails in the
    normaliser. *)
Lemma by_sol_with_list_body :
  fst (weather_by_sol env_list_body 7 ∅) = Raise AttributeError.
Proof. reflexivity. Qed.

End AnyRuntime.

(** ** The model on sample requests *)

Section Examples.
#[local] Existing Instance sample_runtime.

Lemma cache_keys_witness :
  latest_key <> sol_key 5
  /\ snd (weather_by_sol env_no_llm 5 ∅) !! "latest" = (∅ : cache) !! "latest"
  /\ snd (weather_by_sol env_no_llm 5 ∅) !! "sol:5"
     = Some (Row 1000 (to_dict (record_of sample_raw)))
  /\ weather_latest env_no_llm ∅
     = (Ok (to_dict (record_of sample_raw)),
        <["latest" := Row 1000 (to_dict (record_of sample_raw))]> ∅)
  /\ weather_latest env_upstream_down
       (<["latest" := Row 1000 (to_dict (record_of sample_raw))]> ∅)
     = (Ok (to_dict (record_of sample_raw)),
        <["latest" := Row 1000 (to_dict (record_of sample_raw))]> ∅)
  /\ weather_latest env_no_llm sample_cache
     = (Ok (to_dict (record_of sample_raw)),
        <["latest" := Row 1000 (to_dict (record_of sample_raw))]> sample_cache).
Proof.
  destruct (cache_keys env_no_llm 5 ∅)
    as (_ & _ & _ & _ & _ & Hne & _ & _ & Hframe & _ & Hstored & _ & Hwrite & _).
  destruct (cache_keys env_upstream_down 5
              (<["latest" := Row 1000 (to_dict (record_of sample_raw))]> ∅))
    as (_ & _ & _ & _ & _ & _ & _ & _ & _ & _ & _ & Hread & _).
  destruct (cache_keys env_no_llm 5 sample_cache)
    as (_ & _ & _ & _ & _ & _ & _ & _ & _ & _ & _ & _ & Hreplace & _).
  split; [exact Hne |]. split; [apply Hframe; discriminate |].
  split; [apply Hstored; vm_compute; reflexivity |].
  split; [| split].
  - apply Hwrite; [| reflexivity]. intros r Hr. now rewrite lookup_empty in Hr.
  - apply (Hread (Row 1000 (to_dict (record_of sample_raw)))).
    + apply lookup_insert_eq.
    + vm_compute. discriminate.
    + reflexivity.
  - apply Hreplace; [| reflexivity]. intros r Hr.
    unfold sample_cache in Hr. rewrite lookup_singleton_eq in Hr.
    injection Hr as <-. vm_compute. reflexivity.
Defined.

Lemma normalize_fixed_shape_witness :
  exists fields temps,
    _normalize_maas (VDict [("sol", VInt 4100)]) = Ok (VDict fields)
    /\ map fst fields = record_fields
    /\ assoc "sol" fields = Some (VInt 4100)
    /\ assoc "earth_date" fields = Some VNone
    /\ assoc "min" temps = Some VNone.
Proof.
  destruct (normalize_fixed_shape [("sol", VInt 4100)])
    as (fields & temps & Hn & Hk & _ & _ & _ & _ & _ & Hpass & Htemp & _).
  exists fields, temps. split; [exact Hn |]. split; [exact Hk |].
  inversion Hpass as [| ? ? [Hsol _] Hpass']; subst.
  inversion Hpass' as [| ? ? [_ Hdate] _]; subst.
  inversion Htemp as [| ? ? [_ Hmin] _]; subst.
  split; [exact Hsol |]. split; [apply Hdate | apply Hmin]; reflexivity.
Defined.

Lemma normalize_never_raises_witness :
  exists r,
    _normalize_maas (VDict [("min_temp", VStr "warm"); ("max_temp", VBool true)])
    = Ok (to_dict r)
    /\ temp_min r = None
    /\ temp_max r = Some float_one
    /\ temp_min_gts r = None.
Proof.
  destruct (normalize_never_raises [("min_temp", VStr "warm"); ("max_temp", VBool true)])
    as [(r & Hn & Hall) _].
  exists r. split; [exact Hn |].
  inversion Hall as [| ? ? (Hmin & _ & _) Hall1]; subst.
  inversion Hall1 as [| ? ? (_ & _ & Hmax) Hall2]; subst.
  inversion Hall2 as [| ? ? (_ & Hgts & _) _]; subst.
  split; [apply Hmin; reflexivity |].
  split; [apply (Hmax true); reflexivity | apply Hgts; reflexivity].
Defined.

(** C3, as stated, fails: the JSON boolean [true] is no number, yet the
    field it is coerced to is 1.0 and not null. *)
Lemma normalize_bool_counterexample :
  json_numeric (VBool true) = false
  /\ (d <- _normalize_maas (VDict [("min_temp", VBool true)]) ;;
      t <- dict_get d "temperature_c" ;;
      dict_get t "min")%py = Ok (VFloat float_one).
Proof. split; [reflexivity | apply (bool_member_coerced true)]. Qed.

Lemma format_brief_spec_witness :
  _format_brief (to_dict (record_of [("sol", VInt 4100); ("season", VStr "Month 6")]))
  = Ok "Mars (Curiosity/REMS) — Sol 4100 (None). Season: Month 6."
  /\ occurs_in "Pressure:" "Mars (Curiosity/REMS) — Sol 4100 (None). Season: Month 6."
     = false.
Proof.
  destruct (format_brief_spec (record_of [("sol", VInt 4100); ("season", VStr "Month 6")]))
    as (Hf & _ & Hp).
  split; [exact Hf |].
  destruct (Hp eq_refl) as [_ Hocc]. exact Hocc.
Defined.

(** C8, as stated, fails: a record with a null pressure whose season text
    holds the word gives a summary that contains "Pressure:". *)
Lemma format_brief_pressure_counterexample :
  _normalize_maas (VDict [("season", VStr "Pressure: high")])
  = Ok (to_dict (record_of [("season", VStr "Pressure: high")]))
  /\ pressure_pa (record_of [("season", VStr "Pressure: high")]) = None
  /\ _format_brief (to_dict (record_of [("season", VStr "Pressure: high")]))
     = Ok "Mars (Curiosity/REMS) — Sol None (None). Season: Pressure: high."
  /\ occurs_in "Pressure:" "Mars (Curiosity/REMS) — Sol None (None). Season: Pressure: high."
     = true.
Proof.
  split; [apply normalize_dict |]. split; [reflexivity |].
  split; [apply brief_with_pressure_in_season | reflexivity].
Qed.

Lemma weather_by_sol_status_witness :
  http_status (fst (weather_by_sol env_not_found 7 ∅)) = 404
  /\ http_status (fst (weather_by_sol env_upstream_down 7 ∅)) = 502
  /\ fst (weather_by_sol env_no_llm 7 ∅) = Ok (to_dict (record_of sample_raw))
  /\ fst (weather_by_sol env_list_body 7 ∅) = Raise AttributeError.
Proof.
  destruct (weather_by_sol_status env_not_found 7 ∅) as (_ & H404 & _).
  destruct (weather_by_sol_status env_upstream_down 7 ∅) as (_ & _ & [_ H502] & _).
  destruct (weather_by_sol_status env_no_llm 7 ∅) as (_ & _ & _ & Hok & _).
  destruct (weather_by_sol_status env_list_body 7 ∅) as (_ & _ & _ & _ & Hlist).
  split; [| split; [| split]].
  - apply H404; reflexivity.
  - apply H502. split; [reflexivity | eexists; reflexivity].
  - apply Hok; reflexivity.
  - apply (Hlist eq_refl (VList [VInt 1])); [reflexivity | reflexivity | discriminate].
Defined.

Lemma failed_lookup_cache_witness :
  snd (weather_latest env_upstream_down ∅) = ∅
  /\ snd (weather_by_sol env_not_found 7 ∅) = ∅.
Proof.
  split.
  - destruct (failed_lookup_cache env_upstream_down 7 ∅
                (snd (weather_latest env_upstream_down ∅))
                (HTTPException 502 "Upstream MAAS error: timed out")) as [Hl _].
    apply Hl; reflexivity.
  - destruct (failed_lookup_cache env_not_found 7 ∅
                (snd (weather_by_sol env_not_found 7 ∅))
                (HTTPException 404 "No data for sol 7")) as [_ Hs].
    apply Hs; reflexivity.
Defined.

(** C7, as stated, fails: the upstream call succeeds with the body [[1]],
    which reports data, and the endpoint answers neither 404 nor 502 nor a
    record: it raises [AttributeError], which is answered with 500. *)
Lemma weather_by_sol_counterexample :
  requests_get env_list_body (MAAS_BASE env_list_body +:+ "/" +:+ int_str 7)
  = GetJson (VList [VInt 1])
  /\ reports_no_data (VList [VInt 1]) = false
  /\ fst (weather_by_sol env_list_body 7 ∅) = Raise AttributeError
  /\ http_status (fst (weather_by_sol env_list_body 7 ∅)) = 500.
Proof.
  split; [reflexivity |]. split; [reflexivity |].
  rewrite by_sol_with_list_body. split; reflexivity.
Qed.

(** C10, as stated, fails: the lookup of a failed request has removed the
    expired entry of the requested key. *)
Lemma failed_lookup_counterexample :
  sample_cache !! "latest" = Some (Row 0 (to_dict null_record))
  /\ fst (weather_latest env_upstream_down sample_cache)
     = Raise (HTTPException 502 "Upstream MAAS error: timed out")
  /\ snd (weather_latest env_upstream_down sample_cache) !! "latest" = None.
Proof. split; [reflexivity | apply failed_request_evicts]. Qed.

Lemma ai_brief_latest_errors_witness :
  ai_brief_latest env_no_llm ∅
  = (Ok (brief "fallback" sample_text), snd (weather_latest env_no_llm ∅))
  /\ http_status (fst (ai_brief_latest env_upstream_down ∅)) = 502.
Proof.
  destruct (ai_brief_latest_errors env_no_llm ∅ cache_ok_empty) as (Hok & _ & _).
  destruct (ai_brief_latest_errors env_upstream_down ∅ cache_ok_empty) as (_ & _ & Hdown).
  split.
  - assert (Hw : weather_latest env_no_llm ∅
                 = (Ok (to_dict (record_of sample_raw)), snd (weather_latest env_no_llm ∅)))
      by reflexivity.
    destruct (Hok _ _ Hw) as (mode & text & -> & [[-> Hllm] | (-> & _ & Htext)]).
    + discriminate Hllm.
    + injection Htext as <-. reflexivity.
  - apply (Hdown eq_refl "timed out"). reflexivity.
Defined.

(** C1, as stated, fails: with the upstream down the endpoint answers 502
    and no summary. *)
Lemma ai_brief_latest_counterexample :
  fst (ai_brief_latest env_upstream_down ∅)
  = Raise (HTTPException 502 "Upstream MAAS error: timed out")
  /\ http_status (fst (ai_brief_latest env_upstream_down ∅)) = 502.
Proof. rewrite brief_with_upstream_down. split; reflexivity. Qed.

Lemma malformed_llm_body_witness :
  ai_brief_latest env_llm_not_json ∅
  = (Ok (brief "fallback" sample_text), snd (weather_latest env_llm_not_json ∅))
  /\ ai_brief_by_sol env_llm_empty_object 7 ∅
     = (Ok (brief "llm" "{}"), snd (weather_by_sol env_llm_empty_object 7 ∅)).
Proof.
  assert (Hne : forall s, String "k" s <> EmptyString /\ String "m" s <> EmptyString
                          /\ String "h" s <> EmptyString) by (repeat split; discriminate).
  assert (Hst : 200 <= 200 < 300) by lia.
  split.
  - destruct (malformed_llm_body env_llm_not_json 7 ∅
                "https://llm.example/v1/chat/completions" "key" "model" 200 None
                cache_ok_empty eq_refl eq_refl eq_refl
                (proj2 (proj2 (Hne _))) (proj1 (Hne _)) (proj1 (proj2 (Hne _))) Hst)
      as [Hl _].
    assert (Hw : weather_latest env_llm_not_json ∅
                 = (Ok (to_dict (record_of sample_raw)),
                    snd (weather_latest env_llm_not_json ∅))) by reflexivity.
    destruct (Hl _ _ Hw eq_refl) as [Hnone _].
    destruct (Hnone eq_refl) as (text & Htext & ->). injection Htext as <-. reflexivity.
  - destruct (malformed_llm_body env_llm_empty_object 7 ∅
                "https://llm.example/v1/chat/completions" "key" "model" 200
                (Some (VDict []))
                cache_ok_empty eq_refl eq_refl eq_refl
                (proj2 (proj2 (Hne _))) (proj1 (Hne _)) (proj1 (proj2 (Hne _))) Hst)
      as [_ Hs].
    assert (Hw : weather_by_sol env_llm_empty_object 7 ∅
                 = (Ok (to_dict (record_of sample_raw)),
                    snd (weather_by_sol env_llm_empty_object 7 ∅))) by reflexivity.
    destruct (Hs _ _ Hw eq_refl) as [_ Hsome].
    exact (Hsome (VDict []) eq_refl eq_refl).
Defined.

(** C5, as stated, fails: a 200 response whose JSON body [{}] lacks the
    expected content is answered with mode "llm" and the text "{}". *)
Lemma malformed_llm_body_counterexample :
  has_content (VDict []) = false
  /\ requests_post env_llm_empty_object "https://llm.example/v1/chat/completions" "key"
       "model" (_prompt_from_weather (to_dict (record_of sample_raw)))
     = PostResponse 200 (Some (VDict []))
  /\ fst (ai_brief_latest env_llm_empty_object ∅)
     = Ok (VDict [("mode", VStr "llm"); ("text", VStr "{}")]).
Proof. split; [reflexivity |]. split; [reflexivity | apply brief_with_empty_object]. Qed.

Lemma unconfigured_llm_falls_back_witness :
  ai_brief_latest env_no_llm ∅
  = (Ok (brief "fallback" sample_text), snd (weather_latest env_no_llm ∅))
  /\ ai_brief_by_sol env_not_found 7 ∅
     = (Raise (HTTPException 404 "No data for sol 7"), ∅).
Proof.
  destruct (unconfigured_llm_falls_back env_no_llm 7 ∅ (or_introl eq_refl) cache_ok_empty)
    as (_ & Hl & _).
  destruct (unconfigured_llm_falls_back env_not_found 7 ∅ (or_introl eq_refl) cache_ok_empty)
    as (_ & _ & _ & _ & Hs & _).
  split.
  - assert (Hw : weather_latest env_no_llm ∅
                 = (Ok (to_dict (record_of sample_raw)), snd (weather_latest env_no_llm ∅)))
      by reflexivity.
    destruct (Hl _ _ Hw) as (text & Htext & ->).
    injection Htext as <-. reflexivity.
  - apply Hs. reflexivity.
Defined.

End Examples.

(** * Further properties of the code *)

(** ** The cache primitives *)

Lemma expired_is_miss (now : Q) (key : string) (CACHE : cache) :
  cache_expired now key CACHE = true -> cache_hit now key CACHE = false.
Proof.
  unfold cache_expired, cache_hit. destruct (CACHE !! key) as [r |]; [| reflexivity].
  intros H%negb_true_iff. now rewrite H.
Qed.

Lemma get_cached_total (now : Q) (key : string) (CACHE : cache) :
  exists x, _get_cached now key CACHE = (Ok x, after_lookup now key CACHE).
Proof.
  destruct (cache_hit now key CACHE) eqn:Hhit.
  - destruct (get_cached_hit _ _ _ Hhit) as (r & Hr & _ & ->). exists (row_v r).
    f_equal. symmetry. apply after_lookup_fresh. unfold cache_expired. rewrite Hr.
    unfold cache_hit in Hhit. rewrite Hr in Hhit.
    apply andb_prop in Hhit as [-> _]. reflexivity.
  - destruct (get_cached_miss _ _ _ Hhit) as (x & _ & ->). eauto.
Qed.

(** X1.  [_get_cached] never raises and only ever removes: it creates and
    alters no entry, leaves every other key alone, and a second lookup at the
    same time returns the same value and changes nothing more. *)
Theorem get_cached_read_only (now : Q) (key : string) (CACHE : cache) :
  (exists x, _get_cached now key CACHE = (Ok x, after_lookup now key CACHE))
  /\ (forall k r, snd (_get_cached now key CACHE) !! k = Some r -> CACHE !! k = Some r)
  /\ (forall k, k <> key -> snd (_get_cached now key CACHE) !! k = CACHE !! k)
  /\ _get_cached now key (snd (_get_cached now key CACHE)) = _get_cached now key CACHE.
Proof.
  destruct (get_cached_total now key CACHE) as [x Hx]. rewrite Hx. cbn [snd].
  split; [eauto |]. split; [intros k r; apply after_lookup_sub |].
  split; [intros k; apply after_lookup_other |].
  unfold after_lookup in *. unfold _get_cached in *. unfold cache_expired in *.
  destruct (CACHE !! key) as [r |] eqn:Hr.
  - destruct (negb (Qle_bool (now - row_t r) TTL)) eqn:Hold.
    + rewrite lookup_delete_eq. congruence.
    + now rewrite Hr, Hold.
  - now rewrite Hr.
Qed.

Lemma get_cached_read_only_witness :
  snd (_get_cached 1000 "latest" sample_cache) !! "sol:5" = sample_cache !! "sol:5".
Proof.
  apply (proj1 (proj2 (proj2 (get_cached_read_only 1000 "latest" sample_cache)))).
  discriminate.
Defined.

(** X2.  [_set_cached] overwrites unconditionally: storing twice under a key
    leaves the cache of the second store alone, the value then read is the
    second one for 900 seconds from the second store, whatever the age of the
    first, and what is read under any other key is not affected. *)
Theorem set_cached_overwrites (T1 T2 now : Q) (key k : string) (x1 x2 : value)
    (CACHE : cache) :
  snd (_set_cached T2 key x2 (snd (_set_cached T1 key x1 CACHE)))
  = snd (_set_cached T2 key x2 CACHE)
  /\ ((now - T2 <= 900)%Q ->
      fst (_get_cached now key (snd (_set_cached T2 key x2 (snd (_set_cached T1 key x1 CACHE)))))
      = Ok x2)
  /\ (k <> key ->
      fst (_get_cached now k (snd (_set_cached T1 key x1 CACHE)))
      = fst (_get_cached now k CACHE)).
Proof.
  cbn [snd _set_cached]. split; [apply insert_insert_eq |]. split.
  - intros Hfresh. unfold _get_cached. rewrite insert_insert_eq, lookup_insert_eq.
    cbn [row_t row_v]. apply within_TTL in Hfresh. now rewrite Hfresh.
  - intros Hk. unfold _get_cached. rewrite lookup_insert_ne by congruence.
    destruct (CACHE !! k) as [r |]; [| reflexivity].
    now destruct (negb (Qle_bool (now - row_t r) TTL)).
Qed.

Lemma set_cached_overwrites_witness :
  fst (_get_cached 2000 "latest"
         (snd (_set_cached 1500 "latest" (VInt 2)
                 (snd (_set_cached 0 "latest" (VInt 1) ∅)))))
  = Ok (VInt 2)
  /\ fst (_get_cached 2000 "sol:5" (snd (_set_cached 0 "latest" (VInt 1) ∅)))
     = fst (_get_cached 2000 "sol:5" ∅).
Proof.
  destruct (set_cached_overwrites 0 1500 2000 "latest" "sol:5" (VInt 1) (VInt 2) ∅)
    as (_ & Hread & Hother).
  split.
  - apply Hread. vm_compute. discriminate.
  - apply Hother. discriminate.
Defined.

(** ** The weather endpoints over time *)

Lemma record_truthy (x : value) : is_weather_record x -> py_truthy x = true.
Proof. now intros [r ->]. Qed.

Lemma hit_after_store (now T : Q) (key : string) (x : value) (CACHE : cache) :
  (now - T <= 900)%Q -> py_truthy x = true ->
  cache_hit now key (<[key := Row T x]> CACHE) = true.
Proof.
  intros Hfresh Hx. unfold cache_hit. rewrite lookup_insert_eq. cbn [row_t row_v].
  apply within_TTL, negb_false_iff in Hfresh. now rewrite Hfresh, Hx.
Qed.

Lemma miss_after_ttl (now T : Q) (key : string) (x : value) (CACHE : cache) :
  (900 < now - T)%Q -> cache_hit now key (<[key := Row T x]> CACHE) = false.
Proof.
  intros Hold. unfold cache_hit. rewrite lookup_insert_eq. cbn [row_t row_v].
  apply older_than_TTL, negb_true_iff in Hold. now rewrite Hold.
Qed.

Section OverTime.
Context {rt : PyRuntime}.

(** What a successful request that asked the upstream leaves in the cache *)
Lemma weather_latest_fetched (E : env) (CACHE : cache) (out : value) :
  cache_hit (time_lookup E) latest_key CACHE = false ->
  fst (weather_latest E CACHE) = Ok out ->
  is_weather_record out
  /\ snd (weather_latest E CACHE)
     = <[latest_key := Row (time_store E) out]>
         (after_lookup (time_lookup E) latest_key CACHE).
Proof.
  intros Hhit. rewrite (weather_latest_miss E _ Hhit). cbv zeta.
  destruct (_fetch_maas E "/") as [data | e]; [| discriminate].
  destruct (_normalize_maas data) as [out' | e] eqn:Hn; [| discriminate].
  cbn. intros [= ->]. split; [eapply normalize_record, Hn | reflexivity].
Qed.

Lemma weather_by_sol_fetched (E : env) (n : Z) (CACHE : cache) (out : value) :
  cache_hit (time_lookup E) (sol_key n) CACHE = false ->
  fst (weather_by_sol E n CACHE) = Ok out ->
  is_weather_record out
  /\ snd (weather_by_sol E n CACHE)
     = <[sol_key n := Row (time_store E) out]>
         (after_lookup (time_lookup E) (sol_key n) CACHE).
Proof.
  intros Hhit. rewrite (weather_by_sol_miss E _ _ Hhit). cbv zeta.
  destruct (_fetch_maas E ("/" +:+ int_str n)) as [data | e]; [| discriminate].
  destruct (reports_no_data data); [discriminate |].
  destruct (_normalize_maas data) as [out' | e] eqn:Hn; [| discriminate].
  cbn. intros [= ->]. split; [eapply normalize_record, Hn | reflexivity].
Qed.

Lemma weather_latest_served (E : env) (T : Q) (out : value) (CACHE : cache) :
  (time_lookup E - T <= 900)%Q -> is_weather_record out ->
  weather_latest E (<[latest_key := Row T out]> CACHE)
  = (Ok out, <[latest_key := Row T out]> CACHE).
Proof.
  intros Hfresh Hout.
  destruct (weather_latest_hit E _ (hit_after_store _ _ latest_key _ CACHE Hfresh
                                      (record_truthy _ Hout))) as (r & Hr & ->).
  rewrite lookup_insert_eq in Hr. now injection Hr as <-.
Qed.

Lemma weather_by_sol_served (E : env) (n : Z) (T : Q) (out : value) (CACHE : cache) :
  (time_lookup E - T <= 900)%Q -> is_weather_record out ->
  weather_by_sol E n (<[sol_key n := Row T out]> CACHE)
  = (Ok out, <[sol_key n := Row T out]> CACHE).
Proof.
  intros Hfresh Hout.
  destruct (weather_by_sol_hit E n _ (hit_after_store _ _ (sol_key n) _ CACHE Hfresh
                                        (record_truthy _ Hout))) as (r & Hr & ->).
  rewrite lookup_insert_eq in Hr. now injection Hr as <-.
Qed.

(** X3.  Once a request has fetched and stored a record, any request for the
    same key whose lookup comes at most 900 seconds after the store is
    answered with that record from the cache, whatever the upstream would
    answer then, and leaves the cache as it is. *)
Theorem second_request_from_cache (E1 E2 : env) (n : Z) (CACHE : cache) (out : value) :
  (time_lookup E2 - time_store E1 <= 900)%Q ->
  (cache_hit (time_lookup E1) latest_key CACHE = false ->
   fst (weather_latest E1 CACHE) = Ok out ->
   weather_latest E2 (snd (weather_latest E1 CACHE))
   = (Ok out, snd (weather_latest E1 CACHE)))
  /\ (cache_hit (time_lookup E1) (sol_key n) CACHE = false ->
      fst (weather_by_sol E1 n CACHE) = Ok out ->
      weather_by_sol E2 n (snd (weather_by_sol E1 n CACHE))
      = (Ok out, snd (weather_by_sol E1 n CACHE))).
Proof.
  intros Hfresh. split; intros Hhit Hout.
  - destruct (weather_latest_fetched _ _ _ Hhit Hout) as [Hrec ->].
    now apply weather_latest_served.
  - destruct (weather_by_sol_fetched _ _ _ _ Hhit Hout) as [Hrec ->].
    now apply weather_by_sol_served.
Qed.

(** X4.  Reading does not prolong an entry: after a request has stored a
    record, and whatever requests were answered from the cache in between, a
    request whose lookup comes more than 900 seconds after the store finds no
    usable entry and asks the upstream. *)
Theorem no_sliding_expiration (E1 E2 E3 : env) (n : Z) (CACHE : cache) (out : value) :
  (time_lookup E2 - time_store E1 <= 900)%Q ->
  (900 < time_lookup E3 - time_store E1)%Q ->
  (cache_hit (time_lookup E1) latest_key CACHE = false ->
   fst (weather_latest E1 CACHE) = Ok out ->
   cache_hit (time_lookup E3) latest_key
     (snd (weather_latest E2 (snd (weather_latest E1 CACHE)))) = false)
  /\ (cache_hit (time_lookup E1) (sol_key n) CACHE = false ->
      fst (weather_by_sol E1 n CACHE) = Ok out ->
      cache_hit (time_lookup E3) (sol_key n)
        (snd (weather_by_sol E2 n (snd (weather_by_sol E1 n CACHE)))) = false).
Proof.
  intros Hfresh Hold. split; intros Hhit Hout.
  - destruct (weather_latest_fetched _ _ _ Hhit Hout) as [Hrec ->].
    rewrite weather_latest_served by assumption. now apply miss_after_ttl.
  - destruct (weather_by_sol_fetched _ _ _ _ Hhit Hout) as [Hrec ->].
    rewrite weather_by_sol_served by assumption. now apply miss_after_ttl.
Qed.

Lemma after_lookup_delete (now : Q) (key : string) (CACHE : cache) :
  after_lookup now key (delete key CACHE) = delete key CACHE.
Proof.
  apply after_lookup_fresh. unfold cache_expired. now rewrite lookup_delete_eq.
Qed.

Lemma miss_after_delete (now : Q) (key : string) (CACHE : cache) :
  cache_hit now key (delete key CACHE) = false.
Proof. unfold cache_hit. now rewrite lookup_delete_eq. Qed.

(** X5.  An expired entry counts as none: a request that finds an entry
    older than 900 seconds under its key returns what it would return, and
    leaves the cache it would leave, had the entry been deleted beforehand. *)
Theorem expired_entry_as_absent (E : env) (n : Z) (CACHE : cache) :
  (cache_expired (time_lookup E) latest_key CACHE = true ->
   weather_latest E CACHE = weather_latest E (delete latest_key CACHE))
  /\ (cache_expired (time_lookup E) (sol_key n) CACHE = true ->
      weather_by_sol E n CACHE = weather_by_sol E n (delete (sol_key n) CACHE)).
Proof.
  split; intros Hexp.
  - rewrite (weather_latest_miss E _ (expired_is_miss _ _ _ Hexp)).
    rewrite (weather_latest_miss E _ (miss_after_delete _ _ _)).
    rewrite after_lookup_delete. unfold after_lookup. now rewrite Hexp.
  - rewrite (weather_by_sol_miss E _ _ (expired_is_miss _ _ _ Hexp)).
    rewrite (weather_by_sol_miss E _ _ (miss_after_delete _ _ _)).
    rewrite after_lookup_delete. unfold after_lookup. now rewrite Hexp.
Qed.

Lemma miss_stays_miss (now now' : Q) (key : string) (CACHE : cache) :
  cache_hit now key CACHE = false ->
  cache_hit now' key (after_lookup now key CACHE) = false.
Proof.
  unfold after_lookup, cache_expired, cache_hit.
  destruct (CACHE !! key) as [r |] eqn:Hr; [| now rewrite Hr].
  destruct (Qle_bool (now - row_t r) TTL); cbn [negb andb].
  - intros Hv. rewrite Hr, Hv. apply andb_false_r.
  - intros _. now rewrite lookup_delete_eq.
Qed.

(** X6.  Failures are not cached: after a weather request has failed, with
    404, 502 or any other exception, the cache holds no usable entry under
    the requested key, so the next request for it, whenever it comes, asks
    the upstream again. *)
Theorem failures_not_cached (E : env) (n : Z) (CACHE CACHE' : cache) (e : exn)
    (now : Q) :
  (weather_latest E CACHE = (Raise e, CACHE') ->
   cache_hit now latest_key CACHE' = false)
  /\ (weather_by_sol E n CACHE = (Raise e, CACHE') ->
      cache_hit now (sol_key n) CACHE' = false).
Proof.
  split.
  - intros [Hhit ->]%weather_latest_raise. now apply miss_stays_miss.
  - intros [Hhit ->]%weather_by_sol_raise. now apply miss_stays_miss.
Qed.

End OverTime.

(** ** The latest-sol endpoint and the passthrough *)

Lemma append_cancel_l (a b c : string) : a +:+ b = a +:+ c -> b = c.
Proof. induction a as [| x a IH]; cbn; [auto | intros [= H]; auto]. Qed.

Lemma int_str_nonempty (n : Z) : int_str n <> EmptyString.
Proof.
  unfold int_str. destruct (Z.to_int n) as [d | d] eqn:Hd; cbn.
  - destruct d; discriminate.
  - discriminate.
Qed.

Section Passthrough.
Context {rt : PyRuntime}.
Variable E : env.

Lemma weather_latest_answer_miss (CACHE : cache) :
  cache_hit (time_lookup E) latest_key CACHE = false ->
  fst (weather_latest E CACHE)
  = match requests_get E (latest_url E) with
    | GetRaised msg => Raise (HTTPException 502 ("Upstream MAAS error: " +:+ msg))
    | GetUncaught u => Raise (uncaught_exn u)
    | GetJson data => _normalize_maas data
    end.
Proof.
  intros Hhit. rewrite (weather_latest_miss E _ Hhit). cbv zeta.
  unfold _fetch_maas, latest_url.
  destruct (requests_get E (MAAS_BASE E +:+ "/")) as [data | msg | u];
    [| reflexivity | reflexivity].
  destruct (_normalize_maas data); reflexivity.
Qed.




Lemma maas_answer (n : Z) (CACHE : cache) :
  maas E n CACHE
  = (match requests_get E (if n =? 0 then latest_url E else sol_url E n) with
     | GetRaised msg => Raise (HTTPException 502 ("Upstream MAAS error: " +:+ msg))
     | GetUncaught u => Raise (uncaught_exn u)
     | GetJson data =>
         if py_truthy data then Ok data
         else Raise (HTTPException 502 "Empty MAAS response")
     end, CACHE).
Proof.
  unfold maas, hbind, lift, _fetch_maas, latest_url, sol_url.
  destruct (n =? 0);
    match goal with |- context [requests_get E ?u] => destruct (requests_get E u) end;
    try reflexivity; now destruct (py_truthy _).
Qed.



(** X9.  The two weather endpoints normalise what the passthrough returns:
    on a cache miss [/weather/latest] answers with the normalisation of the
    object that [/maas?sol=0] returns, and for [n] other than 0
    [/weather/{n}] with that of the object that [/maas?sol=n] returns, unless
    the object has a truthy [error] member, which gives 404. *)
Theorem weather_normalises_maas (n : Z) (CACHE : cache) (raw : list (string * value)) :
  (cache_hit (time_lookup E) latest_key CACHE = false ->
   fst (maas E 0 CACHE) = Ok (VDict raw) ->
   fst (weather_latest E CACHE) = Ok (to_dict (record_of raw)))
  /\ (n <> 0 ->
      cache_hit (time_lookup E) (sol_key n) CACHE = false ->
      fst (maas E n CACHE) = Ok (VDict raw) ->
      fst (weather_by_sol E n CACHE)
      = if py_truthy (member "error" raw)
        then Raise (HTTPException 404 ("No data for sol " +:+ int_str n))
        else Ok (to_dict (record_of raw))).
Proof.
  split.
  - intros Hhit. rewrite maas_answer, (weather_latest_answer_miss _ Hhit).
    cbn [fst Z.eqb].
    destruct (requests_get E (latest_url E)) as [data | msg | u];
      [| discriminate | now destruct u].
    destruct (py_truthy data); [| discriminate]. intros [= ->]. apply normalize_dict.
  - intros Hn Hhit. rewrite maas_answer, (weather_by_sol_answer_miss E _ _ Hhit).
    cbn [fst]. destruct (Z.eqb_spec n 0) as [-> | _]; [now destruct Hn |].
    unfold sol_url.
    destruct (requests_get E (MAAS_BASE E +:+ "/" +:+ int_str n)) as [data | msg | u];
      [| discriminate | now destruct u].
    destruct (py_truthy data) eqn:Ht; [| discriminate]. intros [= ->].
    destruct raw as [| kv raw]; [discriminate |].
    cbn [reports_no_data]. destruct (py_truthy (member "error" (kv :: raw))); [reflexivity |].
    apply normalize_dict.
Qed.

(** X10.  Cache keys and upstream URLs correspond one to one: two sols have
    the same cache key exactly when they have the same upstream URL, and the
    key and the URL of the latest sol are those of no sol. *)
Theorem keys_match_urls (n m : Z) :
  (sol_key n = sol_key m <-> sol_url E n = sol_url E m)
  /\ (sol_url E n = sol_url E m -> n = m)
  /\ latest_url E <> sol_url E n
  /\ latest_key <> sol_key n.
Proof.
  assert (Hinj : sol_url E n = sol_url E m -> n = m).
  { unfold sol_url. intros H%append_cancel_l. cbn in H. injection H as H.
    now apply int_str_inj. }
  split; [split |].
  - now intros ->%sol_key_inj.
  - now intros ->%Hinj.
  - split; [exact Hinj |]. split; [| apply latest_is_no_sol_key].
    unfold latest_url, sol_url. intros H%append_cancel_l. cbn in H. injection H as H.
    symmetry in H. now apply int_str_nonempty in H.
Qed.

End Passthrough.

(** ** The normaliser and the formatter at the edges *)

Section Edges.
Context {rt : PyRuntime}.

(** X11.  The normaliser reads its thirteen input members and nothing else:
    two objects that agree on them, whatever else they hold and in whatever
    order, are normalised to the same record. *)
Theorem normalize_reads_only_its_members (raw raw' : list (string * value)) :
  (forall k, In k input_members -> member k raw = member k raw') ->
  _normalize_maas (VDict raw) = _normalize_maas (VDict raw').
Proof.
  intros H. rewrite !normalize_dict. unfold record_of.
  rewrite !(H "sol"), !(H "terrestrial_date"), !(H "season"), !(H "min_temp"),
    !(H "max_temp"), !(H "min_gts_temp"), !(H "max_gts_temp"), !(H "pressure"),
    !(H "pressure_string"), !(H "sunrise"), !(H "sunset"),
    !(H "local_uv_irradiance_index"), !(H "atmo_opacity")
    by (cbn; tauto).
  reflexivity.
Qed.

Lemma append_empty_r (x : string) : x +:+ EmptyString = x.
Proof.
  induction x as [| c x IH]; [reflexivity |].
  change (String c (x +:+ EmptyString) = String c x). now rewrite IH.
Qed.

Lemma concat_lead (x : string) (rest : list string) :
  exists tail, String.concat " " (x :: rest) = x +:+ tail.
Proof.
  destruct rest as [| y rest].
  - exists EmptyString. now rewrite append_empty_r.
  - eexists. reflexivity.
Qed.

(** X12.  The formatter answers "No data." for every falsy argument (null,
    the empty dict, the empty list, 0, empty text), raises [AttributeError]
    for a truthy argument that is no dict, and [ValueError] for a dict whose
    temperature bounds are present with text as the lower one; for a
    normalised record it never answers "No data.". *)
Theorem format_brief_edges (d : value) :
  (py_truthy d = false -> _format_brief d = Ok "No data.")
  /\ (py_truthy d = true -> (forall kvs, d <> VDict kvs) ->
      _format_brief d = Raise AttributeError)
  /\ (forall kvs t s,
        d = VDict kvs ->
        member "temperature_c" kvs = VDict t ->
        member "min" t = VStr s -> member "max" t <> VNone ->
        _format_brief d = Raise ValueError)
  /\ (is_weather_record d -> _format_brief d <> Ok "No data.").
Proof.
  split; [| split; [| split]].
  - intros Hf. unfold _format_brief. now rewrite Hf.
  - intros Ht Hd. unfold _format_brief. rewrite Ht.
    destruct d; try reflexivity. now destruct (Hd kvs).
  - intros kvs t s -> Htc Hmin Hmax.
    assert (Ht : py_truthy (VDict kvs) = true).
    { destruct kvs; [discriminate Htc | reflexivity]. }
    unfold _format_brief. rewrite Ht.
    cbn [negb dict_get rbind]. fold (member "temperature_c" kvs). rewrite Htc.
    assert (Htt : py_truthy (VDict t) = true).
    { destruct t; [discriminate Hmin | reflexivity]. }
    rewrite Htt. cbn [dict_get rbind]. fold (member "min" t) (member "max" t).
    rewrite Hmin. destruct (member "max" t); try reflexivity. now destruct Hmax.
  - intros [r ->]. rewrite format_brief_clauses. unfold brief_clauses.
    destruct (concat_lead (lead_clause r)
                (temp_clause r ++ pressure_clause r ++ season_clause r
                 ++ opacity_clause r ++ uv_clause r)) as [tail ->].
    discriminate.
Qed.

End Edges.

(** ** The LLM call and the summary endpoints *)

Section LLM.
Context {rt : PyRuntime}.

Lemma extraction_cases (data : value) :
  try_except
    (choices <- subscript_key data "choices" ;;
     first <- subscript_0 choices ;;
     message <- subscript_key first "message" ;;
     content <- subscript_key message "content" ;;
     py_strip content)%py
    (fun _ => Ok (py_str data))
  = match content_of data with
    | Some s => Ok (str_strip s)
    | None => Ok (py_str data)
    end.
Proof.
  unfold content_of, subscript_key.
  destruct data as [ | | | | | | kvs]; try reflexivity. cbn [rbind].
  destruct (assoc "choices" kvs) as [[ | | | | [|] | [| [ | | | | | | first] ] | ] |];
    try reflexivity.
  cbn [rbind subscript_0].
  destruct (assoc "message" first) as [[ | | | | | | message] |]; try reflexivity.
  cbn [rbind].
  destruct (assoc "content" message) as [[ | | | | | | ] |]; reflexivity.
Qed.

(** [_call_llm], case by case *)
Lemma call_llm_cases (E : env) (prompt : string) :
  _call_llm E prompt
  = if negb (llm_configured E)
    then Raise (RuntimeError "LLM not configured (set LLM_API_URL, LLM_API_KEY, LLM_MODEL).")
    else
      match llm_reply E prompt with
      | PostRaised msg => Raise (RequestException msg)
      | PostResponse status body =>
          if (400 <=? status) && (status <? 600)
          then Raise (RequestException "HTTPError")
          else
            match body with
            | None => Raise (RequestException "JSONDecodeError")
            | Some data =>
                match content_of data with
                | Some s => Ok (str_strip s)
                | None => Ok (py_str data)
                end
            end
      end.
Proof.
  unfold _call_llm, llm_configured, llm_reply.
  destruct (negb _); [reflexivity |].
  destruct (requests_post E _ _ _ prompt) as [msg | status [data |]]; try reflexivity.
  destruct ((400 <=? status) && (status <? 600)); [reflexivity |].
  apply extraction_cases.
Qed.

Lemma error_status_iff (status : Z) :
  (400 <=? status) && (status <? 600) = true <-> 400 <= status < 600.
Proof. rewrite andb_true_iff, Z.leb_le, Z.ltb_lt. tauto. Qed.

(** X13.  [_call_llm] raises exactly when a setting is missing or empty,
    when the request itself raises, when the status is between 400 and 599,
    or when the body is not JSON; every other response, whatever its status
    and its JSON body, yields a text. *)
Theorem call_llm_raises_iff (E : env) (prompt : string) :
  (exists e, _call_llm E prompt = Raise e)
  <-> llm_configured E = false
      \/ (exists msg, llm_reply E prompt = PostRaised msg)
      \/ (exists status body,
            llm_reply E prompt = PostResponse status body
            /\ (400 <= status < 600 \/ body = None)).
Proof.
  rewrite call_llm_cases. destruct (llm_configured E); cbn [negb]; [| split; eauto].
  destruct (llm_reply E prompt) as [msg | status body].
  - split; eauto.
  - destruct ((400 <=? status) && (status <? 600)) eqn:Hst.
    + apply error_status_iff in Hst. split; [| eauto]. intros _. right. right. eauto.
    + assert (Hok : ~ (400 <= status < 600)).
      { rewrite <- error_status_iff, Hst. discriminate. }
      destruct body as [data |].
      * split.
        -- intros [e He]. destruct (content_of data); discriminate.
        -- intros [[=] | [[msg [=]] | (s & b & [= <- <-] & [H | [=]])]]. now destruct Hok.
      * split; [| eauto]. intros _. right. right. eauto.
Qed.

(** X14.  When the LLM is configured and answers, with a status outside
    400..599, a JSON body that holds text at [choices[0].message.content],
    [_call_llm] returns that text stripped, and both summary endpoints answer
    with it tagged "llm" without formatting the fallback. *)
Theorem llm_content_returned (E : env) (n : Z) (CACHE : cache) (status : Z)
    (data : value) (s : string) :
  llm_configured E = true ->
  ~ (400 <= status < 600) ->
  content_of data = Some s ->
  (forall prompt,
      llm_reply E prompt = PostResponse status (Some data) ->
      _call_llm E prompt = Ok (str_strip s))
  /\ (forall d CACHE',
        weather_latest E CACHE = (Ok d, CACHE') ->
        llm_reply E (_prompt_from_weather d) = PostResponse status (Some data) ->
        ai_brief_latest E CACHE = (Ok (brief "llm" (str_strip s)), CACHE'))
  /\ (forall d CACHE',
        weather_by_sol E n CACHE = (Ok d, CACHE') ->
        llm_reply E (_prompt_from_weather d) = PostResponse status (Some data) ->
        ai_brief_by_sol E n CACHE = (Ok (brief "llm" (str_strip s)), CACHE')).
Proof.
  intros Hconf Hst Hcontent.
  assert (Hcall : forall prompt,
             llm_reply E prompt = PostResponse status (Some data) ->
             _call_llm E prompt = Ok (str_strip s)).
  { intros prompt Hreply. rewrite call_llm_cases, Hconf, Hreply, Hcontent. cbn [negb].
    destruct ((400 <=? status) && (status <? 600)) eqn:Hb; [| reflexivity].
    now apply error_status_iff in Hb. }
  split; [exact Hcall |]. split; intros d CACHE' Hw Hreply.
  - rewrite ai_brief_latest_unfold, Hw, (Hcall _ Hreply). reflexivity.
  - rewrite ai_brief_by_sol_unfold, Hw, (Hcall _ Hreply). reflexivity.
Qed.

Lemma getenv_empty (x y z : option string) :
  x = Some EmptyString \/ y = Some EmptyString \/ z = Some EmptyString ->
  getenv_truthy x && getenv_truthy y && getenv_truthy z = false.
Proof.
  intros [-> | [-> | ->]]; cbn; rewrite ?andb_false_r; reflexivity.
Qed.

(** X15.  A setting that is set but empty counts as missing: [_call_llm]
    raises its configuration error without sending a request, and both
    summary endpoints answer with the deterministic text tagged "fallback". *)
Theorem empty_setting_is_missing (E : env) (n : Z) (CACHE : cache) :
  LLM_API_URL E = Some EmptyString \/ LLM_API_KEY E = Some EmptyString
  \/ LLM_MODEL E = Some EmptyString ->
  cache_ok CACHE ->
  (forall prompt,
      _call_llm E prompt
      = Raise (RuntimeError "LLM not configured (set LLM_API_URL, LLM_API_KEY, LLM_MODEL)."))
  /\ (forall d CACHE',
        weather_latest E CACHE = (Ok d, CACHE') ->
        exists text, _format_brief d = Ok text
                     /\ ai_brief_latest E CACHE = (Ok (brief "fallback" text), CACHE'))
  /\ (forall d CACHE',
        weather_by_sol E n CACHE = (Ok d, CACHE') ->
        exists text, _format_brief d = Ok text
                     /\ ai_brief_by_sol E n CACHE = (Ok (brief "fallback" text), CACHE')).
Proof.
  intros Hempty Hok.
  assert (Hcall : forall prompt,
             _call_llm E prompt
             = Raise (RuntimeError
                        "LLM not configured (set LLM_API_URL, LLM_API_KEY, LLM_MODEL).")).
  { intros prompt. apply call_llm_unconfigured. now apply getenv_empty. }
  split; [exact Hcall |]. split; intros d CACHE' Hw.
  - pose proof (ai_brief_latest_cases E CACHE Hok) as H. rewrite Hw in H.
    destruct H as (text & Hf & ->). rewrite Hcall. eauto.
  - pose proof (ai_brief_by_sol_cases E n CACHE Hok) as H. rewrite Hw in H.
    destruct H as (text & Hf & ->). rewrite Hcall. eauto.
Qed.


End LLM.

(** ** Every cache the application can reach *)

Section Reachable.
Context {rt : PyRuntime}.

Lemma weather_latest_entries (E : env) (CACHE : cache) (k : string) (r : row) :
  snd (weather_latest E CACHE) !! k = Some r ->
  CACHE !! k = Some r \/ (k = latest_key /\ is_weather_record (row_v r)).
Proof.
  destruct (cache_hit (time_lookup E) latest_key CACHE) eqn:Hhit.
  - destruct (weather_latest_hit E _ Hhit) as (r' & _ & ->). auto.
  - rewrite (weather_latest_miss E _ Hhit). cbv zeta.
    destruct (_fetch_maas E "/") as [data | e];
      [| intros H%after_lookup_sub; auto].
    destruct (_normalize_maas data) as [out | e] eqn:Hn;
      [| intros H%after_lookup_sub; auto].
    cbn [snd]. rewrite lookup_insert. case_decide as Hk.
    + intros [= <-]. right. split; [now symmetry |]. eapply normalize_record, Hn.
    + intros H%after_lookup_sub. auto.
Qed.

Lemma weather_by_sol_entries (E : env) (n : Z) (CACHE : cache) (k : string) (r : row) :
  snd (weather_by_sol E n CACHE) !! k = Some r ->
  CACHE !! k = Some r \/ (k = sol_key n /\ is_weather_record (row_v r)).
Proof.
  destruct (cache_hit (time_lookup E) (sol_key n) CACHE) eqn:Hhit.
  - destruct (weather_by_sol_hit E _ _ Hhit) as (r' & _ & ->). auto.
  - rewrite (weather_by_sol_miss E _ _ Hhit). cbv zeta.
    destruct (_fetch_maas E ("/" +:+ int_str n)) as [data | e];
      [| intros H%after_lookup_sub; auto].
    destruct (reports_no_data data); [intros H%after_lookup_sub; auto |].
    destruct (_normalize_maas data) as [out | e] eqn:Hn;
      [| intros H%after_lookup_sub; auto].
    cbn [snd]. rewrite lookup_insert. case_decide as Hk.
    + intros [= <-]. right. split; [now symmetry |]. eapply normalize_record, Hn.
    + intros H%after_lookup_sub. auto.
Qed.

Lemma brief_latest_cache (E : env) (CACHE : cache) :
  snd (ai_brief_latest E CACHE) = snd (weather_latest E CACHE).
Proof.
  rewrite ai_brief_latest_unfold. now destruct (weather_latest E CACHE) as [[d | e] c'].
Qed.

Lemma brief_by_sol_cache (E : env) (n : Z) (CACHE : cache) :
  snd (ai_brief_by_sol E n CACHE) = snd (weather_by_sol E n CACHE).
Proof.
  rewrite ai_brief_by_sol_unfold. now destruct (weather_by_sol E n CACHE) as [[d | e] c'].
Qed.

(** An entry after a request was there before or is a record stored under
    the key of a weather lookup. *)
Lemma serve_entries (E : env) (q : request) (CACHE : cache) (k : string) (r : row) :
  snd (serve E q CACHE) !! k = Some r ->
  CACHE !! k = Some r
  \/ ((k = latest_key \/ exists n, k = sol_key n) /\ is_weather_record (row_v r)).
Proof.
  destruct q as [ | | | n | n | | n]; cbn [serve].
  - auto.
  - auto.
  - intros [H | [-> H]]%weather_latest_entries; auto.
  - intros [H | [-> H]]%weather_by_sol_entries; eauto.
  - rewrite maas_answer. auto.
  - rewrite brief_latest_cache. intros [H | [-> H]]%weather_latest_entries; auto.
  - rewrite brief_by_sol_cache. intros [H | [-> H]]%weather_by_sol_entries; eauto.
Qed.

Lemma serve_all_entries (qs : list (env * request)) (CACHE : cache) (k : string)
    (r : row) :
  serve_all qs CACHE !! k = Some r ->
  CACHE !! k = Some r
  \/ ((k = latest_key \/ exists n, k = sol_key n) /\ is_weather_record (row_v r)).
Proof.
  revert CACHE. induction qs as [| [E q] qs IH]; intros CACHE; cbn [serve_all]; [auto |].
  intros [H | H]%IH; [| auto]. now apply serve_entries in H.
Qed.

(** X17.  Whatever requests the application has served since it started
    with an empty cache, and whatever the upstream and the LLM answered,
    every cache entry sits under "latest" or under the key of a sol and
    holds a normalised record, which is truthy; so a cached value is never
    mistaken for a miss and the formatter never fails on it. *)
Theorem reachable_cache (qs : list (env * request)) (k : string) (r : row) :
  serve_all qs ∅ !! k = Some r ->
  (k = latest_key \/ exists n, k = sol_key n)
  /\ is_weather_record (row_v r)
  /\ py_truthy (row_v r) = true
  /\ exists text, _format_brief (row_v r) = Ok text.
Proof.
  intros [H | [Hk Hr]]%serve_all_entries.
  - now rewrite lookup_empty in H.
  - split; [exact Hk |]. split; [exact Hr |].
    split; [now apply record_truthy | now apply format_brief_total].
Qed.

End Reachable.

(** ** Further sample requests *)

Section MoreExamples.
#[local] Existing Instance sample_runtime.

Lemma second_request_from_cache_witness :
  weather_latest env_upstream_down (snd (weather_latest env_no_llm ∅))
  = (Ok (to_dict (record_of sample_raw)), snd (weather_latest env_no_llm ∅)).
Proof.
  assert (Hfresh : (time_lookup env_upstream_down - time_store env_no_llm <= 900)%Q)
    by (vm_compute; discriminate).
  apply (proj1 (second_request_from_cache env_no_llm env_upstream_down 7 ∅
                  (to_dict (record_of sample_raw)) Hfresh)); reflexivity.
Defined.

Lemma no_sliding_expiration_witness :
  cache_hit 2000 latest_key
    (snd (weather_latest env_upstream_down (snd (weather_latest env_no_llm ∅))))
  = false.
Proof.
  assert (Hfresh : (time_lookup env_upstream_down - time_store env_no_llm <= 900)%Q)
    by (vm_compute; discriminate).
  assert (Hold : (900 < time_lookup env_down_later - time_store env_no_llm)%Q)
    by (vm_compute; reflexivity).
  apply (proj1 (no_sliding_expiration env_no_llm env_upstream_down env_down_later 7 ∅
                  (to_dict (record_of sample_raw)) Hfresh Hold)); reflexivity.
Defined.

Lemma expired_entry_as_absent_witness :
  weather_latest env_no_llm sample_cache
  = weather_latest env_no_llm (delete latest_key sample_cache).
Proof.
  apply (proj1 (expired_entry_as_absent env_no_llm 7 sample_cache)). reflexivity.
Defined.

Lemma failures_not_cached_witness :
  cache_hit 5000 latest_key (snd (weather_latest env_upstream_down sample_cache)) = false.
Proof.
  apply (proj1 (failures_not_cached env_upstream_down 7 sample_cache
                  (snd (weather_latest env_upstream_down sample_cache))
                  (HTTPException 502 "Upstream MAAS error: timed out") 5000)).
  reflexivity.
Defined.



Lemma weather_normalises_maas_witness :
  fst (weather_latest env_no_llm ∅) = Ok (to_dict (record_of sample_raw))
  /\ fst (weather_by_sol env_not_found 7 ∅)
     = Raise (HTTPException 404 "No data for sol 7").
Proof.
  split.
  - apply (proj1 (weather_normalises_maas env_no_llm 7 ∅ sample_raw)); reflexivity.
  - apply (proj2 (weather_normalises_maas env_not_found 7 ∅
                    [("error", VStr "not found")])); try reflexivity.
    discriminate.
Defined.

Lemma keys_match_urls_witness :
  sol_url env_no_llm 5 = "https://api.maas2.apollorion.com/5"
  /\ (sol_url env_no_llm 5 = sol_url env_no_llm 5 -> sol_key 5 = sol_key 5).
Proof.
  split; [reflexivity |].
  apply (proj2 (proj1 (keys_match_urls env_no_llm 5 5))).
Defined.

Lemma normalize_reads_only_its_members_witness :
  _normalize_maas (VDict (("wind_speed", VInt 3) :: sample_raw))
  = _normalize_maas (VDict sample_raw).
Proof.
  apply normalize_reads_only_its_members. intros k Hin. cbn in Hin.
  repeat (destruct Hin as [<- | Hin]; [reflexivity |]). contradiction.
Defined.

Lemma format_brief_edges_witness :
  _format_brief (VDict []) = Ok "No data."
  /\ _format_brief (VList [VInt 1]) = Raise AttributeError
  /\ _format_brief
       (VDict [("temperature_c", VDict [("min", VStr "-70"); ("max", VStr "-5")])])
     = Raise ValueError.
Proof.
  split; [| split].
  - apply (proj1 (format_brief_edges (VDict []))). reflexivity.
  - apply (proj1 (proj2 (format_brief_edges (VList [VInt 1])))); [reflexivity |].
    discriminate.
  - apply (proj1 (proj2 (proj2 (format_brief_edges _)))
             [("temperature_c", VDict [("min", VStr "-70"); ("max", VStr "-5")])]
             [("min", VStr "-70"); ("max", VStr "-5")] "-70");
      try reflexivity. discriminate.
Defined.

Lemma call_llm_raises_iff_witness :
  exists e, _call_llm env_no_llm "Summarise." = Raise e.
Proof.
  apply (proj2 (call_llm_raises_iff env_no_llm "Summarise.")). left. reflexivity.
Defined.

Lemma llm_content_returned_witness :
  ai_brief_latest env_llm_ok ∅
  = (Ok (brief "llm" "Cold and clear."), snd (weather_latest env_llm_ok ∅)).
Proof.
  assert (Hst : ~ (400 <= 200 < 600)) by lia.
  destruct (llm_content_returned env_llm_ok 7 ∅ 200 llm_body " Cold and clear. "
              eq_refl Hst eq_refl) as (_ & Hl & _).
  assert (Hw : weather_latest env_llm_ok ∅
               = (Ok (to_dict (record_of sample_raw)), snd (weather_latest env_llm_ok ∅)))
    by reflexivity.
  exact (Hl _ _ Hw eq_refl).
Defined.

Lemma empty_setting_is_missing_witness :
  ai_brief_latest env_llm_empty_model ∅
  = (Ok (brief "fallback" sample_text), snd (weather_latest env_llm_empty_model ∅)).
Proof.
  destruct (empty_setting_is_missing env_llm_empty_model 7 ∅
              (or_intror (or_intror eq_refl)) cache_ok_empty) as (_ & Hl & _).
  assert (Hw : weather_latest env_llm_empty_model ∅
               = (Ok (to_dict (record_of sample_raw)),
                  snd (weather_latest env_llm_empty_model ∅))) by reflexivity.
  destruct (Hl _ _ Hw) as (text & Htext & ->). injection Htext as <-. reflexivity.
Defined.


Lemma reachable_cache_witness :
  is_weather_record (to_dict (record_of sample_raw))
  /\ py_truthy (to_dict (record_of sample_raw)) = true.
Proof.
  destruct (reachable_cache
              [(env_no_llm, GetBriefLatest); (env_not_found, GetWeatherBySol 7)]
              "latest" (Row 1000 (to_dict (record_of sample_raw))))
    as (_ & Hrec & Htruthy & _); [reflexivity |].
  split; [exact Hrec | exact Htruthy].
Defined.

End MoreExamples.
